(** * pipeline-rep: the CSV ingestion function and the signed-URL service

    A shallow embedding of [src/main.py] (the Cloud Function that loads a CSV
    object into [company.employee]) and of [src/services/uploader/main.py]
    (the Flask service that issues signed upload URLs), with the properties
    the specification states about them.

    Python strings are modelled by [string]; a character is a code point
    below 256.  Calls to collaborators (the database driver, Firestore, the
    storage signer, the token verifier) are answered by an explicit
    environment, so that every theorem quantifies over what they may do. *)

From Stdlib Require Import String Ascii List Bool Arith ZArith Lia.
Import ListNotations.
Local Open Scope string_scope.
Local Open Scope list_scope.
Local Open Scope nat_scope.
Set Warnings "-register-all".

(** ** Python string operations used by both programs *)

Module PyStr.

(** [str.isspace] on one character (code points below 256). *)
Definition isspace (c : ascii) : bool :=
  let n := nat_of_ascii c in
  (((9 <=? n) && (n <=? 13)) || ((28 <=? n) && (n <=? 32))
   || (n =? 133) || (n =? 160))%nat.

Fixpoint lstrip (s : string) : string :=
  match s with
  | EmptyString => EmptyString
  | String c s' => if isspace c then lstrip s' else s
  end.

Fixpoint rstrip (s : string) : string :=
  match s with
  | EmptyString => EmptyString
  | String c s' =>
      match rstrip s' with
      | EmptyString => if isspace c then EmptyString else String c EmptyString
      | r => String c r
      end
  end.

(** [s.strip()] *)
Definition strip (s : string) : string := rstrip (lstrip s).

(** [s.startswith(p)] *)
Fixpoint startswith (s p : string) : bool :=
  match p with
  | EmptyString => true
  | String a p' =>
      match s with
      | EmptyString => false
      | String b s' => Ascii.eqb a b && startswith s' p'
      end
  end.

(** [sub in s] *)
Fixpoint contains (sub s : string) : bool :=
  startswith s sub
  || match s with
     | EmptyString => false
     | String _ s' => contains sub s'
     end.

(** [s.replace(old, new)] for a non-empty [old]: a left-to-right scan that
    replaces each non-overlapping occurrence.  [skip] counts the characters
    of the occurrence just replaced that are still to be passed over. *)
Fixpoint replace_from (old new : string) (skip : nat) (s : string) : string :=
  match s with
  | EmptyString => EmptyString
  | String c s' =>
      match skip with
      | S k => replace_from old new k s'
      | O =>
          if startswith s old
          then (new ++ replace_from old new (String.length old - 1) s')%string
          else String c (replace_from old new 0 s')
      end
  end.

Definition replace (s old new : string) : string := replace_from old new 0 s.

(** [s.split(sep, 1)[1]] for a one-character [sep] that occurs in [s]:
    everything after the first occurrence. *)
Fixpoint after_first (sep : ascii) (s : string) : option string :=
  match s with
  | EmptyString => None
  | String c s' => if Ascii.eqb c sep then Some s' else after_first sep s'
  end.

(** [sep.join(l)] *)
Fixpoint join (sep : string) (l : list string) : string :=
  match l with
  | [] => EmptyString
  | [x] => x
  | x :: rest => (x ++ sep ++ join sep rest)%string
  end.

Definition is_empty (s : string) : bool :=
  match s with EmptyString => true | _ => false end.

End PyStr.

(** ** The signed-URL service ([src/services/uploader/main.py]) *)

Module Uploader.
Import PyStr.

(** A JSON value as [request.get_json] returns it (numbers are integers
    here; an object is its list of fields, looked up by first match). *)
Inductive json : Type :=
| JNull
| JBool (b : bool)
| JNum (z : Z)
| JStr (s : string)
| JArr (items : list json)
| JObj (fields : list (string * json)).

(** Python truthiness, as [if not filename] tests it. *)
Definition truthy (v : json) : bool :=
  match v with
  | JNull => false
  | JBool b => b
  | JNum z => negb (Z.eqb z 0)
  | JStr s => negb (is_empty s)
  | JArr items => match items with [] => false | _ => true end
  | JObj fields => match fields with [] => false | _ => true end
  end.

Fixpoint fields_get (k : string) (fields : list (string * json)) : option json :=
  match fields with
  | [] => None
  | (k', v) :: rest => if String.eqb k k' then Some v else fields_get k rest
  end.

(** The decoded ID token: the dict of its claims, name to value (the
    values are strings here), read by [decoded.get("uid")] and
    [decoded.get("email")]. *)
Definition token : Type := list (string * string).

Fixpoint claim (k : string) (t : token) : option string :=
  match t with
  | [] => None
  | (k', v) :: rest => if String.eqb k k' then Some v else claim k rest
  end.

Definition uid (t : token) : option string := claim "uid" t.

Definition email (t : token) : option string := claim "email" t.

(** A dict is truthy when it is not empty: line 68 tests [not decoded]. *)
Definition has_claims (t : token) : bool :=
  match t with [] => false | _ => true end.

(** What reading [approvals/<uid>] can do. *)
Inductive approval_read : Type :=
| ReadRaises
| DocMissing
| Doc (approved : bool).   (* bool(data.get("approved", False)) *)

(** The document [record_upload_request] adds to [upload_requests]
    ([requested_at] is the server timestamp sentinel, [status] is "issued"). *)
Record audit_doc : Type :=
  { doc_uid : option string;
    doc_email : option string;
    doc_object_name : string;
    doc_expires_at : string;
    doc_status : string }.

(** Configuration and collaborators of one request. *)
Record service : Type :=
  { BUCKET : string;
    UPLOAD_PREFIX : string;
    SIGNED_URL_EXP_MIN : nat;
    (* auth.verify_id_token: None when it raises *)
    verify_id_token : string -> option token;
    (* firestore_client.collection("approvals").document(uid).get() *)
    approvals_get : option string -> approval_read;
    (* blob.generate_signed_url(version="v4", expiration, method="PUT",
       content_type): the URL, or the text of the exception raised *)
    generate_signed_url : string -> string -> nat -> json -> string + string;
    (* (datetime.now(timezone.utc) + timedelta(minutes=m)).isoformat() *)
    now_plus_minutes : nat -> string;
    (* col.add(doc): false when it raises *)
    upload_requests_add : audit_doc -> bool }.

Record request : Type :=
  { authorization : option string;   (* the Authorization header *)
    body : option json }.            (* None: the body is not JSON *)

Inductive log_record : Type :=
| TokenVerificationFailed
| FirestoreCheckFailed
| SignedUrlGenerationFailed (detail : string)
| FailedToRecordUploadRequest.

Inductive payload : Type :=
| ErrorBody (error : string) (detail : option string)
| SignedBody (url object_name expires_at : string).

Inductive exn : Type :=
| AttributeError.

(** What the view function does: a response with its status, an HTTP
    exception raised by Flask itself (the body is not JSON), or a Python
    exception that leaves the view. *)
Inductive outcome : Type :=
| Response (status : nat) (p : payload)
| BadRequest
| Raised (e : exn).

Section WithService.
Variable svc : service.

Definition verify_id_token_from_header (req : request)
  : option token * list log_record :=
  let auth_header :=
    match authorization req with Some h => h | None => EmptyString end in
  if negb (startswith auth_header "Bearer ") then (None, [])
  else
    match after_first " " auth_header with
    | None => (None, [])
    | Some rest =>
        let id_token := strip rest in
        match verify_id_token svc id_token with
        | Some decoded => (Some decoded, [])
        | None => (None, [TokenVerificationFailed])
        end
    end.

Definition is_user_approved (u : option string) : bool * list log_record :=
  match approvals_get svc u with
  | ReadRaises => (false, [FirestoreCheckFailed])
  | DocMissing => (false, [])
  | Doc approved => (approved, [])
  end.

(** Returns nothing; the whole body is inside [try ... except Exception]. *)
Definition record_upload_request
  (u e : option string) (object_name expires_at_iso : string)
  : list log_record :=
  let doc := {| doc_uid := u; doc_email := e;
                doc_object_name := object_name;
                doc_expires_at := expires_at_iso;
                doc_status := "issued" |} in
  if upload_requests_add svc doc then [] else [FailedToRecordUploadRequest].

(** [filename.replace("..", "_").replace("/", "_")] *)
Definition sanitize (filename : string) : string :=
  replace (replace filename ".." "_") "/" "_".

Definition get_signed_url (req : request) : outcome * list log_record :=
  let (decoded, log1) := verify_id_token_from_header req in
  match decoded with
  | None => (Response 401 (ErrorBody "unauthenticated" None), log1)
  | Some decoded =>
      if negb (has_claims decoded)
      then (Response 401 (ErrorBody "unauthenticated" None), log1)
      else
      let (approved, log2) := is_user_approved (uid decoded) in
      if negb approved
      then (Response 403 (ErrorBody "user_not_approved" None), log1 ++ log2)
      else
        match body req with
        | None => (BadRequest, log1 ++ log2)
        | Some (JObj fields) =>
            let filename :=
              match fields_get "filename" fields with
              | Some v => v | None => JNull end in
            let content_type :=
              match fields_get "content_type" fields with
              | Some v => v | None => JStr "application/octet-stream" end in
            if negb (truthy filename)
            then (Response 400 (ErrorBody "missing filename" None), log1 ++ log2)
            else
              match filename with
              | JStr name =>
                  let safe_name := sanitize name in
                  let object_name := (UPLOAD_PREFIX svc ++ safe_name)%string in
                  match generate_signed_url svc (BUCKET svc) object_name
                          (SIGNED_URL_EXP_MIN svc) content_type with
                  | inr detail =>
                      (Response 500 (ErrorBody "signed_url_failed" (Some detail)),
                       log1 ++ log2 ++ [SignedUrlGenerationFailed detail])
                  | inl url =>
                      let expires_at :=
                        now_plus_minutes svc (SIGNED_URL_EXP_MIN svc) in
                      let log3 :=
                        record_upload_request (uid decoded) (email decoded)
                          object_name expires_at in
                      (Response 200 (SignedBody url object_name expires_at),
                       log1 ++ log2 ++ log3)
                  end
              | _ => (Raised AttributeError, log1 ++ log2)  (* no .replace *)
              end
        | Some _ => (Raised AttributeError, log1 ++ log2)   (* no .get *)
        end
  end.

End WithService.

(** The same service with another audit collaborator. *)
Definition with_audit (add : audit_doc -> bool) (svc : service) : service :=
  {| BUCKET := BUCKET svc;
     UPLOAD_PREFIX := UPLOAD_PREFIX svc;
     SIGNED_URL_EXP_MIN := SIGNED_URL_EXP_MIN svc;
     verify_id_token := verify_id_token svc;
     approvals_get := approvals_get svc;
     generate_signed_url := generate_signed_url svc;
     now_plus_minutes := now_plus_minutes svc;
     upload_requests_add := add |}.

(** A service in which every collaborator answers, and a request to it. *)
Definition example_service : service :=
  {| BUCKET := "ingest-pipeline";
     UPLOAD_PREFIX := "incoming/";
     SIGNED_URL_EXP_MIN := 15;
     verify_id_token := fun t =>
       if String.eqb t "good-token"
       then Some [("uid", "u1"); ("email", "a@example.com")]
       else None;
     approvals_get := fun u =>
       match u with
       | None => ReadRaises
       | Some u => if String.eqb u "u1" then Doc true else DocMissing
       end;
     generate_signed_url := fun b o _ _ =>
       inl ("https://storage.googleapis.com/" ++ b ++ "/" ++ o)%string;
     now_plus_minutes := fun _ => "2026-01-01T00:15:00+00:00";
     upload_requests_add := fun _ => true |}.

(** The same service when Firestore cannot be read, and when the signer
    raises. *)
Definition firestore_down : service :=
  {| BUCKET := BUCKET example_service;
     UPLOAD_PREFIX := UPLOAD_PREFIX example_service;
     SIGNED_URL_EXP_MIN := SIGNED_URL_EXP_MIN example_service;
     verify_id_token := verify_id_token example_service;
     approvals_get := fun _ => ReadRaises;
     generate_signed_url := generate_signed_url example_service;
     now_plus_minutes := now_plus_minutes example_service;
     upload_requests_add := upload_requests_add example_service |}.

Definition signer_down : service :=
  {| BUCKET := BUCKET example_service;
     UPLOAD_PREFIX := UPLOAD_PREFIX example_service;
     SIGNED_URL_EXP_MIN := SIGNED_URL_EXP_MIN example_service;
     verify_id_token := verify_id_token example_service;
     approvals_get := approvals_get example_service;
     generate_signed_url := fun _ _ _ _ => inr "no credentials";
     now_plus_minutes := now_plus_minutes example_service;
     upload_requests_add := upload_requests_add example_service |}.

(** The same service when the verifier accepts the token and returns no
    claim. *)
Definition no_claims : service :=
  {| BUCKET := BUCKET example_service;
     UPLOAD_PREFIX := UPLOAD_PREFIX example_service;
     SIGNED_URL_EXP_MIN := SIGNED_URL_EXP_MIN example_service;
     verify_id_token := fun _ => Some [];
     approvals_get := approvals_get example_service;
     generate_signed_url := generate_signed_url example_service;
     now_plus_minutes := now_plus_minutes example_service;
     upload_requests_add := upload_requests_add example_service |}.

(** The claims [example_service] decodes. *)
Definition example_token : token := [("uid", "u1"); ("email", "a@example.com")].

(** Requests of an approved caller. *)
Definition request_with (b : json) : request :=
  {| authorization := Some "Bearer good-token"; body := Some b |}.

Definition example_request : request :=
  {| authorization := Some "Bearer good-token";
     body := Some (JObj [("filename", JStr "../../etc/passwd")]) |}.

End Uploader.

(** ** The ingestion function ([src/main.py]) *)

Module Ingest.
Import PyStr.

(** *** Rows as [csv.DictReader] yields them *)

(** A key is a header name, or [None]: [DictReader] stores the fields a row
    has beyond the header under its [restkey], which is [None]. *)
Inductive key : Type :=
| KStr (s : string)
| KNone.

(** A value is a field, [None] (the [restval] of a short row), or the list
    of excess fields stored under [None]. *)
Inductive value : Type :=
| VStr (s : string)
| VNone
| VList (l : list string).

Definition key_eqb (a b : key) : bool :=
  match a, b with
  | KStr x, KStr y => String.eqb x y
  | KNone, KNone => true
  | _, _ => false
  end.

(** A dict, in insertion order, keys unique. *)
Definition pydict : Type := list (key * value).

Fixpoint dict_get (k : key) (d : pydict) : option value :=
  match d with
  | [] => None
  | (k', v) :: rest => if key_eqb k k' then Some v else dict_get k rest
  end.

(** [d[k] = v]: an existing key keeps its position. *)
Fixpoint dict_set (k : key) (v : value) (d : pydict) : pydict :=
  match d with
  | [] => [(k, v)]
  | (k', v') :: rest =>
      if key_eqb k k' then (k', v) :: rest else (k', v') :: dict_set k v rest
  end.

Definition keys (d : pydict) : list key := map fst d.

(** [DictReader.__next__] on one non-blank line, already split into fields:
    [dict(zip(fieldnames, row))], then the excess fields under [None] or
    [None] for the missing ones. *)
Definition DictReader_next (fieldnames row : list string) : pydict :=
  let d := fold_left (fun d kv => dict_set (KStr (fst kv)) (VStr (snd kv)) d)
             (combine fieldnames row) [] in
  let lf := length fieldnames in
  let lr := length row in
  if lf <? lr then dict_set KNone (VList (skipn lf row)) d
  else if lr <? lf
       then fold_left (fun d k => dict_set (KStr k) VNone d)
              (skipn lr fieldnames) d
       else d.

Definition is_blank_line (row : list string) : bool :=
  match row with [] => true | _ => false end.

(** [list(csv.DictReader(csv_text.splitlines()))], given the lines as
    [csv.reader] splits them: the first line is the header, blank lines
    after it are passed over. *)
Definition DictReader (lines : list (list string)) : list pydict :=
  match lines with
  | [] => []
  | fieldnames :: rest =>
      map (DictReader_next fieldnames)
        (filter (fun r => negb (is_blank_line r)) rest)
  end.

Definition fieldnames (lines : list (list string)) : option (list string) :=
  hd_error lines.

(** *** The statement ([psycopg2.sql]) *)

Inductive composable : Type :=
| SQL (s : string)
| Identifier (s : string)
| Placeholder.

(** A [Composed] object, flattened. *)
Definition composed : Type := list composable.

(** [sql.SQL(sep).join(items)] *)
Fixpoint sql_join (sep : string) (items : list composable) : composed :=
  match items with
  | [] => []
  | [x] => [x]
  | x :: rest => x :: SQL sep :: sql_join sep rest
  end.

Definition build_insert (schema : string) (columns : list string) : composed :=
  let placeholders := sql_join ", " (map (fun _ => Placeholder) columns) in
  let fields := sql_join ", " (map Identifier columns) in
  [SQL "INSERT INTO "; Identifier schema; SQL ".employee ("]
  ++ fields ++ [SQL ") VALUES ("] ++ placeholders ++ [SQL ")"].

Definition dquote : string := String (ascii_of_nat 34) EmptyString.

(** Identifier quoting: wrapped in double quotes, embedded ones doubled. *)
Definition quote_ident (s : string) : string :=
  (dquote ++ replace s dquote (dquote ++ dquote) ++ dquote)%string.

Definition render_one (c : composable) : string :=
  match c with
  | SQL s => s
  | Identifier s => quote_ident s
  | Placeholder => "%s"
  end.

(** [stmt.as_string(conn)] when it returns. *)
Definition render (stmt : composed) : string :=
  String.concat EmptyString (map render_one stmt).

Definition count_placeholders (stmt : composed) : nat :=
  length (filter (fun c => match c with Placeholder => true | _ => false end) stmt).

(** *** Calls to the database driver, and the environment answering them *)

Inductive query : Type :=
| SAVEPOINT
| INSERT (stmt : composed) (values : list value)
| RELEASE_SAVEPOINT
| ROLLBACK_TO_SAVEPOINT.

(** A connection is named by its rank among the connections opened in the
    run; a cursor by the connection it was opened on. *)
Inductive call : Type :=
| connect                          (* psycopg2.connect(...) *)
| cursor (conn : nat)              (* conn.cursor() *)
| execute (cur : nat) (q : query)  (* cur.execute(...) *)
| as_string (conn : nat)           (* insert_stmt.as_string(conn) *)
| rollback (conn : nat)            (* conn.rollback() *)
| commit (conn : nat)              (* conn.commit() *)
| close (conn : nat)               (* conn.close() *)
| cursor_close (cur : nat)         (* cur.close() *)
| sleep (seconds : nat).           (* time.sleep(...) *)

(** A call with its outcome: [true] when it returned, [false] when it
    raised an [Exception]. *)
Abbreviation event := (call * bool)%type.

(** The driver and the server: whether a call returns, given all that
    happened before it. *)
Definition environment : Type := list event -> call -> bool.

Inductive exn : Type :=
| AttributeError            (* 'NoneType' object has no attribute 'strip' *)
| KeyError (k : string)
| DownloadError             (* an exception of the storage client *)
| CsvError                  (* _csv.Error, from list(reader) at line 47 *)
| DatabaseError (c : call).

Inductive sql_text : Type :=
| AsString (s : string)     (* insert_stmt.as_string(conn) *)
| Str (stmt : composed).    (* str(insert_stmt) *)

Inductive log_record : Type :=
| EventReceived
| AttemptingDBConnect
| BlobDoesNotExist
| DecodedWithReplacement
| ParsedCSV (rows : nat) (columns : option (list string))
| Connected
| DBConnectionFailed (e : exn)
| SkippingEmptyRow (idx : nat)
| InsertFailed (idx : nat) (text : sql_text)
| Values (values : list value)
| RowError (idx : nat) (e : exn)
| ReconnectionFailed
| Committed (rows_inserted : nat)
| CommitFailed (e : exn)
| DoneProcessing (rows_inserted : nat).

(** What a run leaves behind: the calls it made, and its log. *)
Record world : Type := { trace : list event; log : list log_record }.

Definition empty_world : world := {| trace := []; log := [] |}.

Inductive result (A : Type) : Type :=
| Ok (a : A)
| Raise (e : exn).
Arguments Ok {A} a.
Arguments Raise {A} e.

(** A computation: it returns or raises, and changes the world either way. *)
Definition M (A : Type) : Type := world -> result A * world.

Definition ret {A} (a : A) : M A := fun w => (Ok a, w).

Definition raise {A} (e : exn) : M A := fun w => (Raise e, w).

Definition bind {A B} (m : M A) (k : A -> M B) : M B :=
  fun w =>
    match m w with
    | (Ok a, w') => k a w'
    | (Raise e, w') => (Raise e, w')
    end.

Notation "x <- m ;; k" := (bind m (fun x => k))
  (at level 61, m at next level, right associativity).
Notation "m ;; k" := (bind m (fun _ => k))
  (at level 61, right associativity).

(** [try: m  except Exception as e: h e] *)
Definition try_except {A} (m : M A) (h : exn -> M A) : M A :=
  fun w =>
    match m w with
    | (Ok a, w') => (Ok a, w')
    | (Raise e, w') => h e w'
    end.

(** [try: m  finally: f] *)
Definition try_finally {A} (m : M A) (f : M unit) : M A :=
  fun w =>
    let (r, w1) := m w in
    match f w1 with
    | (Ok _, w2) => (r, w2)
    | (Raise e, w2) => (Raise e, w2)
    end.

Definition lift {A} (r : result A) : M A := fun w => (r, w).

Definition logging (r : log_record) : M unit :=
  fun w => (Ok tt, {| trace := trace w; log := log w ++ [r] |}).

Definition record (e : event) (w : world) : world :=
  {| trace := trace w ++ [e]; log := log w |}.

(** The number of connections opened so far. *)
Definition connections (tr : list event) : nat :=
  length (filter (fun e => match e with (connect, true) => true | _ => false end) tr).

(** *** The program *)

(** The object named by the event, as the storage client finds it and as
    [csv.reader] reads it.  [Text] and [Replaced] carry the lines the reader
    splits the text into; [Unreadable] is a blob on which a call of lines
    31-43 raises ([download_as_bytes()] after [download_as_text()], or the
    client itself); [Malformed] is a text on which the reader raises (a
    field of more than 131072 characters), whether it was decoded with
    replacement or not. *)
Inductive blob : Type :=
| NotFound                                   (* blob.exists() is false *)
| Text (lines : list (list string))          (* download_as_text() *)
| Replaced (lines : list (list string))      (* bytes, decoded with replacement *)
| Unreadable                                 (* the storage client raises *)
| Malformed (replaced : bool).               (* list(reader) raises _csv.Error *)

(** The local variables of [main] that the loop reads and writes. *)
Record locals : Type :=
  { conn : nat; cur : nat; rows_inserted : nat }.

(** How one pass through the loop body ends. *)
Inductive flow : Type :=
| Next      (* the end of the body, or [continue] *)
| Break.

(** Line 62: [[c.strip() for c in row.keys()]] *)
Fixpoint strip_keys (ks : list key) : result (list string) :=
  match ks with
  | [] => Ok []
  | KNone :: _ => Raise AttributeError
  | KStr c :: rest =>
      match strip_keys rest with
      | Ok cols => Ok (strip c :: cols)
      | Raise e => Raise e
      end
  end.

(** [v.strip() if isinstance(v, str) else v] *)
Definition stripped (v : value) : value :=
  match v with VStr s => VStr (strip s) | _ => v end.

(** Line 63:
    [[row[col].strip() if isinstance(row[col], str) else row[col]
      for col in columns]] *)
Fixpoint strip_values (row : pydict) (columns : list string)
  : result (list value) :=
  match columns with
  | [] => Ok []
  | col :: rest =>
      match dict_get (KStr col) row with
      | None => Raise (KeyError col)
      | Some v =>
          match strip_values row rest with
          | Ok vs => Ok (stripped v :: vs)
          | Raise e => Raise e
          end
      end
  end.

(** Lines 62-63. *)
Definition normalize (row : pydict) : result (list string * list value) :=
  match strip_keys (keys row) with
  | Raise e => Raise e
  | Ok columns =>
      match strip_values row columns with
      | Raise e => Raise e
      | Ok values => Ok (columns, values)
      end
  end.

(** Line 65: every value is the empty string or [None]; the [all] of no
    value is true. *)
Definition all_empty (values : list value) : bool :=
  forallb (fun v => match v with
                    | VStr s => is_empty s
                    | VNone => true
                    | VList _ => false
                    end) values.

Section Run.
Variable SCHEMA : string.
Variable env : environment.

(** One call to the driver: the environment says whether it returns. *)
Definition db (c : call) : M unit :=
  fun w =>
    let ok := env (trace w) c in
    (if ok then Ok tt else Raise (DatabaseError c), record (c, ok) w).

(** [psycopg2.connect(...)]: the new connection. *)
Definition do_connect : M nat :=
  fun w => (db connect ;; ret (connections (trace w))) w.

(** [conn.cursor()] *)
Definition do_cursor (c : nat) : M nat := db (cursor c) ;; ret c.

(** [time.sleep(n)] returns. *)
Definition do_sleep (n : nat) : M unit :=
  fun w => (Ok tt, record (sleep n, true) w).

(** Lines 89-103: the handler of a failed insert, after its logging. *)
Definition recover (l : locals) : M (flow * locals) :=
  try_except
    (db (execute (cur l) ROLLBACK_TO_SAVEPOINT) ;; ret (Next, l))
    (fun _ =>
       db (rollback (conn l)) ;;
       try_except (db (close (conn l))) (fun _ => ret tt) ;;
       do_sleep 1 ;;
       (* try: conn = connect(...); cur = conn.cursor().  [conn] is already
          rebound when [conn.cursor()] raises. *)
       c <- try_except (c <- do_connect ;; ret (Some c)) (fun _ => ret None) ;;
       match c with
       | None => logging ReconnectionFailed ;; ret (Break, l)
       | Some c =>
           k <- try_except (k <- do_cursor c ;; ret (Some k))
                  (fun _ => ret None) ;;
           match k with
           | None =>
               logging ReconnectionFailed ;;
               ret (Break, {| conn := c; cur := cur l;
                              rows_inserted := rows_inserted l |})
           | Some k =>
               ret (Next, {| conn := c; cur := k;
                             rows_inserted := rows_inserted l |})
           end
       end).

(** Lines 62-103: the loop body for row number [idx]. *)
Definition row_body (idx : nat) (row : pydict) (l : locals)
  : M (flow * locals) :=
  cv <- lift (normalize row) ;;
  let (columns, values) := cv in
  if all_empty values then
    logging (SkippingEmptyRow idx) ;; ret (Next, l)
  else
    let insert_stmt := build_insert SCHEMA columns in
    try_except
      (db (execute (cur l) SAVEPOINT) ;;
       db (execute (cur l) (INSERT insert_stmt values)) ;;
       db (execute (cur l) RELEASE_SAVEPOINT) ;;
       ret (Next, {| conn := conn l; cur := cur l;
                     rows_inserted := rows_inserted l + 1 |}))
      (fun e =>
         text <- try_except
                   (db (as_string (conn l)) ;; ret (AsString (render insert_stmt)))
                   (fun _ => ret (Str insert_stmt)) ;;
         logging (InsertFailed idx text) ;;
         logging (Values values) ;;
         logging (RowError idx e) ;;
         recover l).

(** Lines 61-103: [for idx, row in enumerate(rows, start=idx)]. *)
Fixpoint for_rows (idx : nat) (rows : list pydict) (l : locals) : M locals :=
  match rows with
  | [] => ret l
  | row :: rest =>
      fl <- row_body idx row l ;;
      match fl with
      | (Next, l') => for_rows (S idx) rest l'
      | (Break, l') => ret l'
      end
  end.

(** Lines 105-119. *)
Definition finalize (l : locals) : M unit :=
  try_finally
    (try_except
       (db (commit (conn l)) ;; logging (Committed (rows_inserted l)))
       (fun e =>
          logging (CommitFailed e) ;;
          try_except (db (rollback (conn l))) (fun _ => ret tt)))
    (try_except
       (db (cursor_close (cur l)) ;; db (close (conn l)))
       (fun _ => ret tt)).

(** Lines 46-121, when [csv.reader] splits the text into [lines]. *)
Definition load (lines : list (list string)) : M unit :=
  let rows := DictReader lines in
  logging (ParsedCSV (length rows) (fieldnames lines)) ;;
  session <- try_except
               (c <- do_connect ;;
                k <- do_cursor c ;;
                logging Connected ;;
                ret (Some (c, k)))
               (fun e => logging (DBConnectionFailed e) ;; ret None) ;;
  match session with
  | None => ret tt
  | Some (c, k) =>
      l <- for_rows 1 rows {| conn := c; cur := k; rows_inserted := 0 |} ;;
      finalize l ;;
      logging (DoneProcessing (rows_inserted l))
  end.

Definition main (b : blob) : M unit :=
  logging EventReceived ;;
  logging AttemptingDBConnect ;;
  match b with
  | NotFound => logging BlobDoesNotExist
  | Text lines => load lines
  | Replaced lines => logging DecodedWithReplacement ;; load lines
  | Unreadable => raise DownloadError
  | Malformed replaced =>
      (if replaced then logging DecodedWithReplacement else ret tt) ;;
      raise CsvError
  end.

End Run.

(** *** Reading a run *)

(** An environment in which every call returns. *)
Definition all_succeed : environment := fun _ _ => true.

(** An environment that follows a script: the n-th call of the run gets the
    n-th answer, and returns once the script is over. *)
Definition scripted (answers : list bool) : environment :=
  fun tr _ => nth (length tr) answers true.

Definition run (schema : string) (env : environment) (b : blob)
  : result unit * world :=
  main schema env b empty_world.

Definition calls (w : world) : list call := map fst (trace w).

(** What [main] gives its caller and its operator: how it ended, and the
    log.  ([main] has no [return] with a value.) *)
Definition output (r : result unit * world) : result unit * list log_record :=
  (fst r, log (snd r)).

(** The number of connections opened after the first. *)
Definition reconnects (w : world) : nat := connections (trace w) - 1.

(** Lines 62-63 return for the row, and the test of line 65 is false. *)
Definition loadable_row (row : pydict) : bool :=
  match normalize row with
  | Ok (_, values) => negb (all_empty values)
  | Raise _ => false
  end.

(** The calls made when the connection is established, every row's insert
    succeeds and the commit succeeds. *)
Definition on_success_path (c : call) : bool :=
  match c with
  | connect | cursor _ | commit _ => true
  | execute _ ROLLBACK_TO_SAVEPOINT => false
  | execute _ _ => true
  | _ => false
  end.

(** Datasets, as [csv.reader] splits their lines. *)
Definition padded_header : list (list string) :=
  [[" id"; "name"]; ["1"; "Alice"]].

Definition long_row : list (list string) :=
  [["id"; "name"]; ["1"; "Alice"; "extra"]].

Definition late_long_row : list (list string) :=
  [["id"]; ["1"]; ["2"; "x"]].

Definition one_row : list (list string) := [["id"]; ["1"]].

Definition two_rows : list (list string) := [["id"]; ["1"]; ["2"]].

Definition blank_row : pydict :=
  [(KStr "id", VStr "  "); (KStr "name", VNone)].

(** Environments.  The calls of a run on [one_row] or [two_rows] are, in
    order: connect, cursor, SAVEPOINT, INSERT, then after a failed INSERT
    as_string, ROLLBACK TO SAVEPOINT, and after a failed ROLLBACK TO
    SAVEPOINT conn.rollback(). *)
Definition row_rejected : environment :=
  scripted [true; true; true; false; true; true].

Definition reconnected : environment :=
  scripted [true; true; true; false; true; false].

Definition lost_connection : environment :=
  scripted [true; true; true; false; true; false; false].

Definition start : locals := {| conn := 0; cur := 0; rows_inserted := 0 |}.

(** *** Counting in a run *)

(** The rows whose savepoint was released. *)
Definition released (tr : list event) : nat :=
  length (filter (fun e => match e with
                           | (execute _ RELEASE_SAVEPOINT, true) => true
                           | _ => false
                           end) tr).

(** The rows logged as skipped, and the rows logged as failed. *)
Definition skipped (lg : list log_record) : nat :=
  length (filter (fun r => match r with
                           | SkippingEmptyRow _ => true
                           | _ => false
                           end) lg).

Definition failed (lg : list log_record) : nat :=
  length (filter (fun r => match r with
                           | InsertFailed _ _ => true
                           | _ => false
                           end) lg).

(** The exceptions no [try] of [main] is around: those of lines 62-63, of
    the storage client, of the reader at line 47, and of [conn.rollback()]
    at line 92. *)
Definition unguarded (e : exn) : bool :=
  match e with
  | AttributeError | KeyError _ | DownloadError | CsvError => true
  | DatabaseError (rollback _) => true
  | DatabaseError _ => false
  end.

(** A database that cannot be reached. *)
Definition unreachable : environment := scripted [false].

(** A database that rejects every INSERT, and one in which ROLLBACK TO
    SAVEPOINT fails as well. *)
Definition insert_fails : environment :=
  fun _ c => match c with execute _ (INSERT _ _) => false | _ => true end.

Definition savepoint_lost : environment :=
  fun _ c =>
    match c with
    | execute _ (INSERT _ _) | execute _ ROLLBACK_TO_SAVEPOINT => false
    | _ => true
    end.

Definition one_record : pydict := [(KStr "id", VStr " 1 ")].

(** The rows [main] has to load. *)
Definition rows_of (b : blob) : list pydict :=
  match b with
  | Text lines | Replaced lines => DictReader lines
  | NotFound | Unreadable | Malformed _ => []
  end.

(** The text was downloaded and the reader split it into lines, or there
    is no blob. *)
Definition readable (b : blob) : bool :=
  match b with
  | Unreadable | Malformed _ => false
  | NotFound | Text _ | Replaced _ => true
  end.

(** The reader's limit on the length of a field, and the blob a
    downloaded text is to [main]: its lines split into fields, unless a
    field is over the limit, on which [list(reader)] raises. *)
Definition field_size_limit : N := 131072%N.

Definition within_field_limit (lines : list (list string)) : bool :=
  forallb
    (forallb (fun f => (N.of_nat (String.length f) <=? field_size_limit)%N))
    lines.

Definition read_text (lines : list (list string)) : blob :=
  if within_field_limit lines then Text lines else Malformed false.

(** A row has a value: some field of the line is not empty after
    stripping. *)
Definition row_has_value (row : pydict) : bool :=
  existsb (fun kv => match snd kv with
                     | VStr s => negb (is_empty (strip s))
                     | VNone => false
                     | VList l => existsb (fun f => negb (is_empty (strip f))) l
                     end) row.

(** An INSERT names at least one column and binds one value to each
    placeholder. *)
Definition well_formed_insert (e : event) : bool :=
  match e with
  | (execute _ (INSERT stmt values), _) =>
      (1 <=? count_placeholders stmt)
      && (count_placeholders stmt =? length values)
  | _ => true
  end.

(** More datasets: a header with a space after the comma, and a blank
    header line. *)
Definition spaced_header : list (list string) :=
  [["id"; " name"]; ["1"; " Alice"]].

Definition blank_header : list (list string) := [[]; ["1"; "2"]].

Definition padded_blank_row : pydict := [(KStr " id", VStr " ")].

End Ingest.

(** * Properties *)

(** ** The sanitizing replacements *)

Module PyStrFacts.
Import PyStr.

Example strip_ex : strip "  a b " = "a b".
Proof. reflexivity. Qed.

Example replace_ex1 : replace "...." ".." "_" = "__".
Proof. reflexivity. Qed.

Example replace_ex2 :
  replace (replace ".../a/.." ".." "_") "/" "_" = "_._a__".
Proof. reflexivity. Qed.

Lemma startswith_nil (s : string) : startswith s EmptyString = true.
Proof. destruct s; reflexivity. Qed.

Lemma startswith_cons (b : ascii) (s : string) (a : ascii) (p : string) :
  startswith (String b s) (String a p) = Ascii.eqb a b && startswith s p.
Proof. reflexivity. Qed.

Lemma startswith_dot (s : string) :
  startswith s "." =
  match s with EmptyString => false | String c _ => Ascii.eqb "." c end.
Proof.
  destruct s as [|c s]; [reflexivity|].
  rewrite startswith_cons, startswith_nil. apply andb_true_r.
Qed.

Lemma startswith_dotdot (c : ascii) (s : string) :
  startswith (String c s) ".." = Ascii.eqb "." c && startswith s ".".
Proof. reflexivity. Qed.

Lemma contains_cons (sub : string) (c : ascii) (s : string) :
  contains sub (String c s) = startswith (String c s) sub || contains sub s.
Proof. reflexivity. Qed.

(** Replacing [".."] by ["_"]: one step of the scan. *)
Lemma replace_dotdot_step (c : ascii) (s : string) :
  replace_from ".." "_" 0 (String c s) =
  if startswith (String c s) ".."
  then String "_" (replace_from ".." "_" 1 s)
  else String c (replace_from ".." "_" 0 s).
Proof. reflexivity. Qed.

Lemma replace_dotdot_skip (c : ascii) (s : string) :
  replace_from ".." "_" 1 (String c s) = replace_from ".." "_" 0 s.
Proof. reflexivity. Qed.

(** The scan leaves no [".."], and a dot it copies at the front was not
    followed by a dot. *)
Lemma replace_dotdot_invariant (s : string) :
  contains ".." (replace_from ".." "_" 0 s) = false
  /\ (startswith (replace_from ".." "_" 0 s) "." = true ->
      startswith s "." = true /\ startswith s ".." = false)
  /\ contains ".." (replace_from ".." "_" 1 s) = false.
Proof.
  induction s as [|c s [IHc [IHd IHs]]].
  - split; [reflexivity|split; [discriminate|reflexivity]].
  - rewrite replace_dotdot_skip, replace_dotdot_step.
    destruct (startswith (String c s) "..") eqn:Hpre; cbv iota.
    + split; [|split; [|assumption]].
      * rewrite contains_cons, IHs. reflexivity.
      * discriminate.
    + split; [|split; [|assumption]].
      * rewrite contains_cons, IHc, orb_false_r, startswith_dotdot.
        rewrite startswith_dotdot in Hpre.
        destruct (Ascii.eqb "." c); [|reflexivity].
        rewrite andb_true_l in *.
        destruct (startswith (replace_from ".." "_" 0 s) ".") eqn:Hd;
          [|reflexivity].
        destruct (IHd eq_refl) as [Hs _]. congruence.
      * rewrite !startswith_dot. intros Hc. split; [assumption|reflexivity].
Qed.

Lemma replace_dotdot_clean (s : string) :
  contains ".." (replace s ".." "_") = false.
Proof. apply replace_dotdot_invariant. Qed.

(** Replacing ["/"] by ["_"] is a character map. *)
Lemma replace_slash_step (c : ascii) (s : string) :
  replace_from "/" "_" 0 (String c s) =
  String (if Ascii.eqb "/" c then "_"%char else c) (replace_from "/" "_" 0 s).
Proof.
  cbn [replace_from]. rewrite startswith_cons, startswith_nil, andb_true_r.
  destruct (Ascii.eqb "/" c); reflexivity.
Qed.

Lemma replace_slash_dot (s : string) :
  startswith (replace_from "/" "_" 0 s) "." = startswith s ".".
Proof.
  destruct s as [|c s]; [reflexivity|].
  rewrite replace_slash_step, !startswith_dot.
  destruct (Ascii.eqb_spec "/" c) as [<-|]; reflexivity.
Qed.

Lemma replace_slash_keeps_dotdot (s : string) :
  contains ".." (replace_from "/" "_" 0 s) = contains ".." s.
Proof.
  induction s as [|c s IH]; [reflexivity|].
  rewrite replace_slash_step, !contains_cons, IH, !startswith_dotdot.
  rewrite replace_slash_dot.
  destruct (Ascii.eqb_spec "/" c) as [<-|]; reflexivity.
Qed.

Lemma replace_slash_clean (s : string) :
  contains "/" (replace_from "/" "_" 0 s) = false.
Proof.
  induction s as [|c s IH]; [reflexivity|].
  rewrite replace_slash_step, contains_cons, IH, orb_false_r.
  rewrite startswith_cons, startswith_nil, andb_true_r.
  destruct (Ascii.eqb_spec "/" c) as [<-|Hne]; [reflexivity|].
  destruct (Ascii.eqb_spec "/" c); congruence.
Qed.

(** *** Stripping *)

Lemma rstrip_cons (c : ascii) (s : string) :
  rstrip (String c s) =
  match rstrip s with
  | EmptyString => if isspace c then EmptyString else String c EmptyString
  | r => String c r
  end.
Proof. reflexivity. Qed.

Lemma rstrip_idempotent (s : string) : rstrip (rstrip s) = rstrip s.
Proof.
  induction s as [|c s IH]; [reflexivity|].
  rewrite rstrip_cons.
  destruct (rstrip s) as [|d r] eqn:E.
  - destruct (isspace c) eqn:Hc; [reflexivity|].
    rewrite rstrip_cons. cbn [rstrip]. rewrite Hc. reflexivity.
  - rewrite rstrip_cons, IH. reflexivity.
Qed.

Lemma rstrip_keeps_head (c : ascii) (s : string) :
  isspace c = false -> rstrip (String c s) = String c (rstrip s).
Proof.
  intros Hc. rewrite rstrip_cons.
  destruct (rstrip s); [rewrite Hc|]; reflexivity.
Qed.

Lemma lstrip_head (s : string) :
  lstrip s = EmptyString
  \/ exists c t, lstrip s = String c t /\ isspace c = false.
Proof.
  induction s as [|c s IH]; [left; reflexivity|].
  cbn [lstrip]. destruct (isspace c) eqn:Hc; [exact IH|].
  right. exists c, s. split; [reflexivity | exact Hc].
Qed.

(** Stripping a stripped string changes nothing. *)
Lemma strip_idempotent (s : string) : strip (strip s) = strip s.
Proof.
  unfold strip.
  destruct (lstrip_head s) as [E|(c & t & E & Hc)]; rewrite E.
  - reflexivity.
  - rewrite (rstrip_keeps_head c t Hc).
    cbn [lstrip]. rewrite Hc.
    rewrite (rstrip_keeps_head c (rstrip t) Hc), rstrip_idempotent.
    reflexivity.
Qed.

(** *** Names that need no sanitizing *)

Lemma replace_dotdot_id (s : string) :
  contains ".." s = false -> replace_from ".." "_" 0 s = s.
Proof.
  induction s as [|c s IH]; [reflexivity|].
  rewrite contains_cons. intros H.
  apply orb_false_iff in H as [Hpre Hrest].
  rewrite replace_dotdot_step, Hpre, (IH Hrest). reflexivity.
Qed.

Lemma replace_slash_id (s : string) :
  contains "/" s = false -> replace_from "/" "_" 0 s = s.
Proof.
  induction s as [|c s IH]; [reflexivity|].
  rewrite contains_cons, startswith_cons, startswith_nil, andb_true_r.
  intros H. apply orb_false_iff in H as [Hc Hrest].
  rewrite replace_slash_step, Hc, (IH Hrest). reflexivity.
Qed.

End PyStrFacts.

(** ** The signed-URL service *)

Module UploaderFacts.
Import PyStr PyStrFacts Uploader.

Example example_response :
  fst (get_signed_url example_service example_request) =
  Response 200
    (SignedBody
       "https://storage.googleapis.com/ingest-pipeline/incoming/____etc_passwd"
       "incoming/____etc_passwd" "2026-01-01T00:15:00+00:00").
Proof. reflexivity. Qed.

Lemma sanitize_clean (filename : string) :
  contains "/" (sanitize filename) = false
  /\ contains ".." (sanitize filename) = false.
Proof.
  unfold sanitize, replace. split.
  - apply replace_slash_clean.
  - rewrite replace_slash_keeps_dotdot. apply replace_dotdot_clean.
Qed.

(** The steps before the audit record do not consult the audit collaborator. *)
Lemma verify_with_audit (add : audit_doc -> bool) (svc : service) (req : request) :
  verify_id_token_from_header (with_audit add svc) req =
  verify_id_token_from_header svc req.
Proof. reflexivity. Qed.

Lemma approved_with_audit (add : audit_doc -> bool) (svc : service) u :
  is_user_approved (with_audit add svc) u = is_user_approved svc u.
Proof. reflexivity. Qed.

(** A request answered with status 200 went through every step. *)
Lemma signed_inversion (svc : service) (req : request) (p : payload) :
  fst (get_signed_url svc req) = Response 200 p ->
  exists decoded log1 log2 fields name content_type url,
    verify_id_token_from_header svc req = (Some decoded, log1)
    /\ is_user_approved svc (uid decoded) = (true, log2)
    /\ body req = Some (JObj fields)
    /\ fields_get "filename" fields = Some (JStr name)
    /\ truthy (JStr name) = true
    /\ content_type =
         match fields_get "content_type" fields with
         | Some v => v
         | None => JStr "application/octet-stream"
         end
    /\ generate_signed_url svc (BUCKET svc)
         (UPLOAD_PREFIX svc ++ sanitize name)%string
         (SIGNED_URL_EXP_MIN svc) content_type = inl url
    /\ p = SignedBody url (UPLOAD_PREFIX svc ++ sanitize name)%string
             (now_plus_minutes svc (SIGNED_URL_EXP_MIN svc))
    /\ snd (get_signed_url svc req) =
         log1 ++ log2 ++
         record_upload_request svc (uid decoded) (email decoded)
           (UPLOAD_PREFIX svc ++ sanitize name)%string
           (now_plus_minutes svc (SIGNED_URL_EXP_MIN svc))
    /\ has_claims decoded = true.
Proof.
  unfold get_signed_url.
  destruct (verify_id_token_from_header svc req) as [[decoded|] log1] eqn:Hv;
    [|discriminate].
  destruct (has_claims decoded) eqn:Hc; cbn [negb]; [|discriminate].
  destruct (is_user_approved svc (uid decoded)) as [[|] log2] eqn:Ha;
    [|discriminate].
  cbn [negb].
  destruct (body req) as [[| | | | |fields]|] eqn:Hb; try discriminate.
  destruct (fields_get "filename" fields) as [filename|] eqn:Hf;
    [|discriminate].
  destruct (truthy filename) eqn:Ht; [|discriminate]. cbn [negb].
  destruct filename as [| | |name| |]; try discriminate.
  destruct (generate_signed_url _ _ _ _ _) as [url|detail] eqn:Hs;
    [|discriminate].
  cbn [fst snd]. intros [= <-].
  exists decoded, log1, log2, fields, name.
  exists (match fields_get "content_type" fields with
          | Some v => v
          | None => JStr "application/octet-stream"
          end), url.
  repeat (split; [first [reflexivity | assumption]|]). assumption.
Qed.

(** The same request, whatever the audit collaborator does. *)
Lemma signed_with_audit (svc : service) (req : request) (p : payload) :
  fst (get_signed_url svc req) = Response 200 p ->
  exists log12 doc, forall add : audit_doc -> bool,
    get_signed_url (with_audit add svc) req =
    (Response 200 p,
     log12 ++ (if add doc then [] else [FailedToRecordUploadRequest])).
Proof.
  intros H.
  destruct (signed_inversion svc req p H)
    as (decoded & log1 & log2 & fields & name & ct & url &
        Hv & Ha & Hb & Hf & Ht & Hct & Hs & Hp & _ & Hc).
  exists (log1 ++ log2).
  eexists. intros add.
  unfold get_signed_url.
  rewrite verify_with_audit, Hv, Hc. cbn [negb].
  rewrite approved_with_audit, Ha.
  cbn [negb]. unfold with_audit at 1. cbn [body]. rewrite Hb, Hf, Ht.
  cbn [negb BUCKET UPLOAD_PREFIX SIGNED_URL_EXP_MIN generate_signed_url
       now_plus_minutes with_audit].
  rewrite <- Hct, Hs. unfold record_upload_request.
  cbn [upload_requests_add with_audit].
  rewrite Hp, app_assoc. reflexivity.
Qed.

(** The response never depends on the audit collaborator. *)
Lemma response_ignores_audit (svc : service) (req : request)
      (add : audit_doc -> bool) :
  fst (get_signed_url (with_audit add svc) req) = fst (get_signed_url svc req).
Proof.
  unfold get_signed_url.
  rewrite verify_with_audit.
  destruct (verify_id_token_from_header svc req) as [[decoded|] log1];
    [|reflexivity].
  destruct (has_claims decoded); [|reflexivity]. cbn [negb].
  rewrite approved_with_audit.
  destruct (is_user_approved svc (uid decoded)) as [[|] log2];
    [|reflexivity].
  cbn [negb with_audit body BUCKET UPLOAD_PREFIX SIGNED_URL_EXP_MIN
       generate_signed_url now_plus_minutes].
  destruct (body req) as [[| | | | |fields]|]; try reflexivity.
  destruct (negb (truthy _)); [reflexivity|].
  destruct (match fields_get "filename" fields with
            | Some v => v | None => JNull end); try reflexivity.
  destruct (generate_signed_url _ _ _ _ _); reflexivity.
Qed.

(** C9: when the audit record cannot be written, a request that is
    answered with the signed URL and status 200 is answered with the same
    URL and status 200; the failure only adds one record to the log, after
    everything the request logs when the audit record is written. *)
Theorem audit_failure_is_logged_only
        (svc : service) (req : request) (add : audit_doc -> bool)
        (url obj expires_at : string) :
  fst (get_signed_url svc req) = Response 200 (SignedBody url obj expires_at) ->
  (forall d, add d = false) ->
  fst (get_signed_url (with_audit add svc) req) =
    Response 200 (SignedBody url obj expires_at)
  /\ snd (get_signed_url (with_audit add svc) req) =
       snd (get_signed_url (with_audit (fun _ => true) svc) req)
       ++ [FailedToRecordUploadRequest].
Proof.
  intros H Hadd.
  destruct (signed_with_audit svc req _ H) as (l & d & E).
  rewrite (E add), (E (fun _ => true)), Hadd. cbn [fst snd].
  rewrite app_nil_r. split; reflexivity.
Qed.

Lemma audit_failure_is_logged_only_witness :
  fst (get_signed_url (with_audit (fun _ => false) example_service)
         example_request) =
    Response 200
      (SignedBody
         "https://storage.googleapis.com/ingest-pipeline/incoming/____etc_passwd"
         "incoming/____etc_passwd" "2026-01-01T00:15:00+00:00")
  /\ snd (get_signed_url (with_audit (fun _ => false) example_service)
            example_request) =
       snd (get_signed_url (with_audit (fun _ => true) example_service)
              example_request)
       ++ [FailedToRecordUploadRequest].
Proof.
  apply (audit_failure_is_logged_only example_service example_request
           (fun _ => false)).
  - reflexivity.
  - reflexivity.
Defined.



(** *** Who is answered what *)

Lemma approved_iff (svc : service) (u : option string) :
  fst (is_user_approved svc u) = true <-> approvals_get svc u = Doc true.
Proof.
  unfold is_user_approved.
  destruct (approvals_get svc u) as [| |[|]]; cbn; split;
    congruence.
Qed.

(** The verifier gets what follows "Bearer " in the header, stripped;
    its refusal is logged and is the only thing logged. *)
Theorem bearer_token_is_stripped
        (svc : service) (req : request) (t : string) :
  authorization req = Some ("Bearer " ++ t)%string ->
  verify_id_token_from_header svc req =
  match verify_id_token svc (strip t) with
  | Some decoded => (Some decoded, [])
  | None => (None, [TokenVerificationFailed])
  end.
Proof.
  intros H. unfold verify_id_token_from_header. rewrite H.
  change (startswith ("Bearer " ++ t) "Bearer ")
    with (startswith t EmptyString).
  rewrite startswith_nil. cbn [negb].
  change (after_first " " ("Bearer " ++ t)) with (Some t).
  reflexivity.
Qed.

Lemma bearer_token_is_stripped_witness :
  verify_id_token_from_header example_service
    {| authorization := Some ("Bearer " ++ "  good-token ")%string;
       body := None |} =
  match verify_id_token example_service (strip "  good-token ") with
  | Some decoded => (Some decoded, [])
  | None => (None, [TokenVerificationFailed])
  end.
Proof.
  apply (bearer_token_is_stripped example_service
           {| authorization := Some ("Bearer " ++ "  good-token ")%string;
              body := None |} "  good-token ").
  reflexivity.
Defined.

(** A header that does not start with "Bearer ", or no header, is
    refused without asking the verifier and without logging. *)
Theorem other_headers_are_refused (svc : service) (req : request) :
  (forall h, authorization req = Some h -> startswith h "Bearer " = false) ->
  verify_id_token_from_header svc req = (None, []).
Proof.
  intros H. unfold verify_id_token_from_header.
  destruct (authorization req) as [h|].
  - rewrite (H h eq_refl). reflexivity.
  - reflexivity.
Qed.

Lemma other_headers_are_refused_witness :
  verify_id_token_from_header example_service
    {| authorization := Some "bearer good-token"; body := None |} = (None, []).
Proof.
  apply (other_headers_are_refused example_service
           {| authorization := Some "bearer good-token"; body := None |}).
  intros h [= <-]. reflexivity.
Defined.

(** The answer is 401 exactly when no token is verified from the header,
    or the verifier accepts the token and returns no claim. *)
Theorem unauthenticated_iff (svc : service) (req : request) (p : payload) :
  fst (get_signed_url svc req) = Response 401 p
  <-> (fst (verify_id_token_from_header svc req) = None
       \/ fst (verify_id_token_from_header svc req) = Some [])
      /\ p = ErrorBody "unauthenticated" None.
Proof.
  unfold get_signed_url.
  destruct (verify_id_token_from_header svc req) as [[tok|] log1]; cbn [fst].
  2:{ split; [intros [= <-]; auto | intros [_ ->]; reflexivity]. }
  destruct tok as [|c tok]; cbn [has_claims negb fst].
  { split; [intros [= <-]; auto | intros [_ ->]; reflexivity]. }
  split; [|intros [[H|H] _]; discriminate].
  destruct (is_user_approved svc _) as [[|] log2]; cbn [negb fst];
    [|discriminate].
  destruct (body req) as [[| | | | |fields]|]; try discriminate.
  destruct (negb (truthy _)); [discriminate|].
  destruct (match fields_get "filename" fields with
            | Some v => v | None => JNull end); try discriminate.
  destruct (generate_signed_url _ _ _ _ _); discriminate.
Qed.

Lemma unauthenticated_iff_witness :
  fst (get_signed_url no_claims example_request) =
  Response 401 (ErrorBody "unauthenticated" None).
Proof.
  apply (proj2 (unauthenticated_iff no_claims example_request
                  (ErrorBody "unauthenticated" None))).
  split; [right|]; reflexivity.
Defined.

(** The answer is 403 exactly when a token is verified with at least one
    claim and the approval document cannot be read, is missing, or does
    not say approved. *)
Theorem forbidden_iff (svc : service) (req : request) (p : payload) :
  fst (get_signed_url svc req) = Response 403 p
  <-> exists tok,
        fst (verify_id_token_from_header svc req) = Some tok
        /\ tok <> []
        /\ approvals_get svc (uid tok) <> Doc true
        /\ p = ErrorBody "user_not_approved" None.
Proof.
  unfold get_signed_url.
  destruct (verify_id_token_from_header svc req) as [[tok|] log1]; cbn [fst].
  2:{ split; [discriminate | intros (t & H & _); discriminate]. }
  destruct tok as [|c tok]; cbn [has_claims negb fst].
  { split; [discriminate|]. intros (t & [= <-] & H & _). congruence. }
  pose proof (approved_iff svc (uid (c :: tok))) as Happ.
  destruct (is_user_approved svc (uid (c :: tok))) as [[|] log2];
    cbn [negb fst] in *.
  - split.
    + destruct (body req) as [[| | | | |fields]|]; try discriminate.
      destruct (negb (truthy _)); [discriminate|].
      destruct (match fields_get "filename" fields with
                | Some v => v | None => JNull end); try discriminate.
      destruct (generate_signed_url _ _ _ _ _); discriminate.
    + intros (t & [= <-] & _ & Hno & _). exfalso. apply Hno, Happ.
      reflexivity.
  - split.
    + intros [= <-]. exists (c :: tok).
      split; [reflexivity|]. split; [discriminate|]. split; [|reflexivity].
      intros H. apply Happ in H. discriminate.
    + intros (t & _ & _ & _ & ->). reflexivity.
Qed.

Lemma forbidden_iff_witness :
  fst (get_signed_url firestore_down example_request) =
  Response 403 (ErrorBody "user_not_approved" None).
Proof.
  apply (proj2 (forbidden_iff firestore_down example_request
                  (ErrorBody "user_not_approved" None))).
  exists example_token.
  split; [reflexivity|]. split; [discriminate|].
  split; [discriminate | reflexivity].
Defined.

(** A signed URL is issued only to a caller whose header carries a
    token the verifier accepts and whose approval document says approved. *)
Theorem no_url_without_approval
        (svc : service) (req : request) (p : payload) :
  fst (get_signed_url svc req) = Response 200 p ->
  exists h t tok,
    authorization req = Some h
    /\ startswith h "Bearer " = true
    /\ after_first " " h = Some t
    /\ verify_id_token svc (strip t) = Some tok
    /\ approvals_get svc (uid tok) = Doc true.
Proof.
  intros H.
  destruct (signed_inversion svc req p H)
    as (decoded & log1 & log2 & fields & name & ct & url &
        Hv & Ha & _).
  unfold verify_id_token_from_header in Hv.
  destruct (authorization req) as [h|] eqn:Hh.
  - destruct (startswith h "Bearer ") eqn:Hs; cbn [negb] in Hv;
      [|discriminate].
    destruct (after_first " " h) as [t|] eqn:Ht; [|discriminate].
    destruct (verify_id_token svc (strip t)) as [tok|] eqn:Hk;
      [|discriminate].
    injection Hv as -> _.
    exists h, t, decoded. repeat (split; [first [reflexivity|assumption]|]).
    apply approved_iff. rewrite Ha. reflexivity.
  - cbn in Hv. discriminate.
Qed.

Lemma no_url_without_approval_witness :
  exists h t tok,
    authorization example_request = Some h
    /\ startswith h "Bearer " = true
    /\ after_first " " h = Some t
    /\ verify_id_token example_service (strip t) = Some tok
    /\ approvals_get example_service (uid tok) = Doc true.
Proof.
  apply (no_url_without_approval example_service example_request
           (SignedBody
              "https://storage.googleapis.com/ingest-pipeline/incoming/____etc_passwd"
              "incoming/____etc_passwd" "2026-01-01T00:15:00+00:00")).
  reflexivity.
Defined.

(** For an approved caller whose token is verified with at least one
    claim, the answer is 400 "missing
    filename" exactly when the body is an object whose filename is absent
    or falsy (null, false, 0, the empty string, list or object). *)
Theorem missing_filename_iff
        (svc : service) (req : request) (tok : token) (p : payload) :
  fst (verify_id_token_from_header svc req) = Some tok ->
  tok <> [] ->
  approvals_get svc (uid tok) = Doc true ->
  (fst (get_signed_url svc req) = Response 400 p
   <-> exists fields,
         body req = Some (JObj fields)
         /\ match fields_get "filename" fields with
            | Some v => truthy v = false
            | None => True
            end
         /\ p = ErrorBody "missing filename" None).
Proof.
  intros Hv Htok Ha. apply approved_iff in Ha.
  unfold get_signed_url.
  destruct (verify_id_token_from_header svc req) as [o log1].
  cbn [fst] in Hv. subst o.
  assert (Hc : has_claims tok = true) by (destruct tok; [congruence|reflexivity]).
  rewrite Hc. cbn [negb].
  destruct (is_user_approved svc (uid tok)) as [a log2].
  cbn [fst] in Ha. subst a. cbn [negb].
  destruct (body req) as [[| | | | |fields]|];
    try (split; [discriminate | intros (f & H & _); discriminate]).
  destruct (fields_get "filename" fields) as [v|] eqn:Hf.
  - destruct (truthy v) eqn:Ht; cbn [negb fst].
    + split.
      * destruct v; try discriminate.
        destruct (generate_signed_url _ _ _ _ _); discriminate.
      * intros (f & [= <-] & H & _). rewrite Hf in H. congruence.
    + split.
      * intros [= <-]. exists fields. rewrite Hf. auto.
      * intros (f & _ & _ & ->). reflexivity.
  - cbn [truthy negb fst]. split.
    + intros [= <-]. exists fields. rewrite Hf. auto.
    + intros (f & _ & _ & ->). reflexivity.
Qed.

Lemma missing_filename_iff_witness :
  fst (get_signed_url example_service
         (request_with (JObj [("filename", JNum 0)]))) =
  Response 400 (ErrorBody "missing filename" None).
Proof.
  apply (proj2 (missing_filename_iff example_service
                  (request_with (JObj [("filename", JNum 0)]))
                  example_token
                  (ErrorBody "missing filename" None)
                  eq_refl ltac:(discriminate) eq_refl)).
  exists [("filename", JNum 0)]. repeat split.
Defined.

(** For an approved caller whose token is verified with at least one
    claim, the view raises (an
    AttributeError, outside any [try]) exactly when the body is JSON but
    not an object, or the filename is truthy but not a string. *)
Theorem view_raises_iff
        (svc : service) (req : request) (tok : token) (e : exn) :
  fst (verify_id_token_from_header svc req) = Some tok ->
  tok <> [] ->
  approvals_get svc (uid tok) = Doc true ->
  (fst (get_signed_url svc req) = Raised e
   <-> (exists v, body req = Some v /\ forall fields, v <> JObj fields)
       \/ (exists fields v,
             body req = Some (JObj fields)
             /\ fields_get "filename" fields = Some v
             /\ truthy v = true
             /\ forall name, v <> JStr name)).
Proof.
  intros Hv Htok Ha. apply approved_iff in Ha.
  unfold get_signed_url.
  destruct (verify_id_token_from_header svc req) as [o log1].
  cbn [fst] in Hv. subst o.
  assert (Hc : has_claims tok = true) by (destruct tok; [congruence|reflexivity]).
  rewrite Hc. cbn [negb].
  destruct (is_user_approved svc (uid tok)) as [a log2].
  cbn [fst] in Ha. subst a. cbn [negb].
  destruct e.
  destruct (body req) as [[| | | | |fields]|]; cbn [fst].
  1-5: split; [intros _; left; eexists; split; [reflexivity|discriminate]
              | reflexivity].
  2:{ split; [discriminate|].
      intros [(v & H & _)|(f & v & H & _)]; discriminate. }
  destruct (fields_get "filename" fields) as [v|] eqn:Hf.
  - destruct (truthy v) eqn:Ht; cbn [negb fst].
    + destruct v;
        try (split; [intros _; right; eexists; eexists;
                     repeat (split; [first [reflexivity|eassumption]|]);
                     discriminate
                    | reflexivity]).
      split.
      * destruct (generate_signed_url _ _ _ _ _); discriminate.
      * intros [(v & [= <-] & H)|(f & v & [= <-] & Hf' & _ & H)].
        -- exfalso. apply (H fields). reflexivity.
        -- exfalso. rewrite Hf in Hf'. injection Hf' as <-.
           apply (H s). reflexivity.
    + split; [discriminate|].
      intros [(v0 & [= <-] & H)|(f & v0 & [= <-] & Hf' & Ht' & _)].
      * exfalso. apply (H fields). reflexivity.
      * congruence.
  - cbn [truthy negb fst]. split; [discriminate|].
    intros [(v0 & [= <-] & H)|(f & v0 & [= <-] & Hf' & _)].
    + exfalso. apply (H fields). reflexivity.
    + congruence.
Qed.

Lemma view_raises_iff_witness :
  fst (get_signed_url example_service
         (request_with (JObj [("filename", JNum 7)]))) =
  Raised AttributeError.
Proof.
  apply (proj2 (view_raises_iff example_service
                  (request_with (JObj [("filename", JNum 7)]))
                  example_token
                  AttributeError eq_refl ltac:(discriminate) eq_refl)).
  right. exists [("filename", JNum 7)], (JNum 7).
  repeat (split; [reflexivity|]). discriminate.
Defined.

Lemma verify_logs (svc : service) (req : request) (r : log_record) :
  In r (snd (verify_id_token_from_header svc req)) ->
  r = TokenVerificationFailed.
Proof.
  unfold verify_id_token_from_header.
  destruct (negb (startswith _ "Bearer ")); [intros []|].
  destruct (after_first " " _); [|intros []].
  destruct (verify_id_token svc _); [intros []|].
  intros [<-|[]]. reflexivity.
Qed.

Lemma approval_logs (svc : service) (u : option string) (r : log_record) :
  In r (snd (is_user_approved svc u)) -> r = FirestoreCheckFailed.
Proof.
  unfold is_user_approved.
  destruct (approvals_get svc u); [intros [<-|[]]; reflexivity| |];
    intros [].
Qed.

(** When the signer raises for an approved caller whose token is verified
    with at least one claim, the answer is 500 with the text of the
    exception, the failure is logged, and no audit failure is: the audit
    record is not attempted. *)
Theorem signer_failure_is_reported
        (svc : service) (req : request) (tok : token)
        (fields : list (string * json)) (name detail : string) :
  fst (verify_id_token_from_header svc req) = Some tok ->
  tok <> [] ->
  approvals_get svc (uid tok) = Doc true ->
  body req = Some (JObj fields) ->
  fields_get "filename" fields = Some (JStr name) ->
  name <> EmptyString ->
  generate_signed_url svc (BUCKET svc)
    (UPLOAD_PREFIX svc ++ sanitize name)%string (SIGNED_URL_EXP_MIN svc)
    (match fields_get "content_type" fields with
     | Some v => v
     | None => JStr "application/octet-stream"
     end) = inr detail ->
  fst (get_signed_url svc req) =
    Response 500 (ErrorBody "signed_url_failed" (Some detail))
  /\ In (SignedUrlGenerationFailed detail) (snd (get_signed_url svc req))
  /\ ~ In FailedToRecordUploadRequest (snd (get_signed_url svc req)).
Proof.
  intros Hv Htok Ha Hb Hf Hname Hs. apply approved_iff in Ha.
  unfold get_signed_url.
  pose proof (verify_logs svc req) as Hlog1.
  destruct (verify_id_token_from_header svc req) as [o log1].
  cbn [fst snd] in Hv, Hlog1. subst o.
  assert (Hc : has_claims tok = true) by (destruct tok; [congruence|reflexivity]).
  rewrite Hc. cbn [negb].
  pose proof (approval_logs svc (uid tok)) as Hlog2.
  destruct (is_user_approved svc (uid tok)) as [a log2].
  cbn [fst snd] in Ha, Hlog2. subst a. cbn [negb].
  rewrite Hb, Hf.
  assert (Ht : truthy (JStr name) = true).
  { destruct name; [congruence | reflexivity]. }
  rewrite Ht. cbn [negb]. rewrite Hs. cbn [fst snd].
  split; [reflexivity|]. split.
  - rewrite !in_app_iff. right. right. left. reflexivity.
  - rewrite !in_app_iff. intros [H|[H|[H|[]]]]; [| |discriminate].
    + apply Hlog1 in H. discriminate.
    + apply Hlog2 in H. discriminate.
Qed.

Lemma signer_failure_is_reported_witness :
  fst (get_signed_url signer_down example_request) =
    Response 500 (ErrorBody "signed_url_failed" (Some "no credentials"))
  /\ In (SignedUrlGenerationFailed "no credentials")
        (snd (get_signed_url signer_down example_request))
  /\ ~ In FailedToRecordUploadRequest
         (snd (get_signed_url signer_down example_request)).
Proof.
  apply (signer_failure_is_reported signer_down example_request
           example_token
           [("filename", JStr "../../etc/passwd")] "../../etc/passwd"
           "no credentials");
    try reflexivity; discriminate.
Defined.

(** *** Names that are issued as they come *)

Lemma sanitize_id (filename : string) :
  contains "/" filename = false ->
  contains ".." filename = false ->
  sanitize filename = filename.
Proof.
  intros Hslash Hdots. unfold sanitize, replace.
  rewrite (replace_dotdot_id filename Hdots).
  apply replace_slash_id. exact Hslash.
Qed.

(** A filename without ["/"] and without [".."] is issued unchanged. *)
Theorem clean_names_are_kept (filename : string) :
  contains "/" filename = false ->
  contains ".." filename = false ->
  sanitize filename = filename.
Proof. apply sanitize_id. Qed.

Lemma clean_names_are_kept_witness :
  sanitize "report 2026.csv" = "report 2026.csv".
Proof.
  apply (clean_names_are_kept "report 2026.csv"); reflexivity.
Defined.

(** Sanitizing twice is sanitizing once. *)
Theorem sanitize_idempotent (filename : string) :
  sanitize (sanitize filename) = sanitize filename.
Proof.
  destruct (sanitize_clean filename) as [Hslash Hdots].
  apply sanitize_id; assumption.
Qed.

End UploaderFacts.

(** ** The ingestion function *)

Module IngestFacts.
Import PyStr Ingest.

Example DictReader_short_row :
  DictReader [["a"; "b"]; ["1"]] = [[(KStr "a", VStr "1"); (KStr "b", VNone)]].
Proof. reflexivity. Qed.

Example DictReader_blank_lines :
  DictReader [["a"; "a"; "b"]; ["1"; "2"]; []; [" "; " "]] =
  [[(KStr "a", VStr "2"); (KStr "b", VNone)];
   [(KStr "a", VStr " "); (KStr "b", VNone)]].
Proof. reflexivity. Qed.

Example run_with_blank_row :
  output (run "company" all_succeed
            (Text [["id"; "name"]; ["1"; "Alice"]; [EmptyString; " "]; ["2"]])) =
  (Ok tt,
   [EventReceived; AttemptingDBConnect; ParsedCSV 3 (Some ["id"; "name"]);
    Connected; SkippingEmptyRow 2; Committed 2; DoneProcessing 2]).
Proof. reflexivity. Qed.

(** *** Rows the normalizer cannot read *)

(** C1: a header name with surrounding whitespace makes [main] raise: the
    stripped name is looked up in the row, where the key is the name as the
    header has it.  The connection is open and every call succeeds. *)
Theorem padded_header_raises :
  DictReader padded_header = [[(KStr " id", VStr "1"); (KStr "name", VStr "Alice")]]
  /\ run "company" all_succeed (Text padded_header) =
     (Raise (KeyError "id"),
      {| trace := [(connect, true); (cursor 0, true)];
         log := [EventReceived; AttemptingDBConnect;
                 ParsedCSV 1 (Some [" id"; "name"]); Connected] |}).
Proof. split; reflexivity. Qed.

(** C2: a row with more fields than the header has names gets the key
    [None] from [DictReader], and stripping the keys raises. *)
Theorem long_row_raises :
  DictReader long_row =
    [[(KStr "id", VStr "1"); (KStr "name", VStr "Alice");
      (KNone, VList ["extra"])]]
  /\ strip_keys [KStr "id"; KStr "name"; KNone] = Raise AttributeError
  /\ fst (run "company" all_succeed (Text long_row)) = Raise AttributeError.
Proof. repeat split; reflexivity. Qed.

(** C6: the normalizer raises on a record whose key has surrounding
    whitespace, and on a record with the key [None]. *)
Theorem normalize_raises :
  normalize [(KStr " id", VStr "1")] = Raise (KeyError "id")
  /\ normalize [(KStr "id", VStr "1"); (KNone, VList ["x"])] = Raise AttributeError.
Proof. split; reflexivity. Qed.

(** C4: a dataset whose only row has a value in every field, with a
    database in which every call succeeds, is not inserted: the header has
    a space after its comma, the stripped name is not a key of the row, and
    [main] raises before the first statement; nothing is committed. *)
Theorem nonempty_dataset_is_not_inserted :
  forallb row_has_value (DictReader spaced_header) = true
  /\ run "company" all_succeed (Text spaced_header) =
     (Raise (KeyError "name"),
      {| trace := [(connect, true); (cursor 0, true)];
         log := [EventReceived; AttemptingDBConnect;
                 ParsedCSV 1 (Some ["id"; " name"]); Connected] |}).
Proof. split; reflexivity. Qed.

(** A row whose only value is blank is not skipped when its key has
    surrounding whitespace: line 63 raises before the test of line 65. *)
Lemma padded_blank_row_raises (schema : string) (env : environment)
      (idx : nat) (l : locals) (w : world) :
  row_body schema env idx padded_blank_row l w = (Raise (KeyError "id"), w).
Proof. reflexivity. Qed.

(** C8: when a row raises in the loop, [main] ends with the cursor and the
    connection open: after the first row's insert no call is made, neither
    [commit] nor [cur.close()] nor [conn.close()]. *)
Theorem connection_left_open :
  fst (run "company" all_succeed (Text late_long_row)) = Raise AttributeError
  /\ calls (snd (run "company" all_succeed (Text late_long_row))) =
     [connect; cursor 0;
      execute 0 SAVEPOINT;
      execute 0 (INSERT (build_insert "company" ["id"]) [VStr "1"]);
      execute 0 RELEASE_SAVEPOINT].
Proof. split; reflexivity. Qed.

(** C5: when ROLLBACK TO SAVEPOINT fails and [conn.rollback()] fails too,
    [main] raises: no reconnection is attempted, the second row is not
    read, and nothing is committed or closed. *)
Theorem failed_rollback_escapes :
  fst (run "company" lost_connection (Text two_rows)) =
    Raise (DatabaseError (rollback 0))
  /\ trace (snd (run "company" lost_connection (Text two_rows))) =
     [(connect, true); (cursor 0, true);
      (execute 0 SAVEPOINT, true);
      (execute 0 (INSERT (build_insert "company" ["id"]) [VStr "1"]), false);
      (as_string 0, true);
      (execute 0 ROLLBACK_TO_SAVEPOINT, false);
      (rollback 0, false)].
Proof. split; reflexivity. Qed.

(** *** Empty rows *)

Lemma row_body_empty (schema : string) (env : environment) (idx : nat)
      (row : pydict) (l : locals) (w : world)
      (columns : list string) (values : list value) :
  normalize row = Ok (columns, values) ->
  all_empty values = true ->
  row_body schema env idx row l w =
  (Ok (Next, l),
   {| trace := trace w; log := log w ++ [SkippingEmptyRow idx] |}).
Proof.
  intros Hn He. unfold row_body, bind, lift.
  rewrite Hn, He. reflexivity.
Qed.

(** What [main] returns and logs is the same whether the rejected row was
    rolled back to its savepoint or the connection was replaced. *)
Lemma same_output_one_reconnect_apart :
  output (run "company" row_rejected (Text one_row)) =
  output (run "company" reconnected (Text one_row))
  /\ reconnects (snd (run "company" row_rejected (Text one_row))) = 0
  /\ reconnects (snd (run "company" reconnected (Text one_row))) = 1.
Proof. repeat split; reflexivity. Qed.

(** C3, as stated, fails: no report read from what a run returns and logs
    gives the number of reconnections. *)
Lemma reconnect_count_not_reported :
  ~ exists report : result unit * list log_record -> nat,
      forall (env : environment) (b : blob),
        report (output (run "company" env b)) =
        reconnects (snd (run "company" env b)).
Proof.
  intros [report H].
  destruct same_output_one_reconnect_apart as (Ho & H0 & H1).
  pose proof (H row_rejected (Text one_row)) as Ha.
  pose proof (H reconnected (Text one_row)) as Hb.
  rewrite Ho, H0 in Ha. rewrite H1 in Hb. congruence.
Qed.

(** C3, amended: a row for which lines 62-63 return and whose values are
    all [None] or empty after stripping leaves the inserted count and the session as they are, makes
    no call to the database, and adds exactly one record to the log, the
    one that says the row is skipped. *)
Theorem empty_row_is_skipped_once
        (schema : string) (env : environment) (idx : nat)
        (row : pydict) (l : locals) (w : world)
        (columns : list string) (values : list value) :
  normalize row = Ok (columns, values) ->
  all_empty values = true ->
  row_body schema env idx row l w =
  (Ok (Next, l),
   {| trace := trace w; log := log w ++ [SkippingEmptyRow idx] |}).
Proof. apply row_body_empty. Qed.

Lemma empty_row_is_skipped_once_witness :
  row_body "company" all_succeed 7 blank_row start empty_world =
  (Ok (Next, start), {| trace := []; log := [SkippingEmptyRow 7] |}).
Proof.
  apply (empty_row_is_skipped_once "company" all_succeed 7 blank_row start
           empty_world ["id"; "name"] [VStr EmptyString; VNone]).
  - reflexivity.
  - reflexivity.
Defined.

(** *** Rows without columns *)

Lemma count_placeholders_join (n : nat) :
  count_placeholders (sql_join ", " (repeat Placeholder n)) = n.
Proof.
  induction n as [|[|n] IH]; try reflexivity.
  change (sql_join ", " (repeat Placeholder (S (S n))))
    with (Placeholder :: SQL ", " :: sql_join ", " (repeat Placeholder (S n))).
  unfold count_placeholders in *. cbn [filter length]. rewrite IH. reflexivity.
Qed.

Lemma count_placeholders_fields (columns : list string) :
  count_placeholders (sql_join ", " (map Identifier columns)) = 0.
Proof.
  induction columns as [|c [|c' columns] IH]; try reflexivity.
  change (sql_join ", " (map Identifier (c :: c' :: columns)))
    with (Identifier c :: SQL ", " :: sql_join ", " (map Identifier (c' :: columns))).
  unfold count_placeholders in *. cbn [filter]. exact IH.
Qed.

Lemma map_const_repeat {A B} (b : B) (l : list A) :
  map (fun _ => b) l = repeat b (length l).
Proof. induction l as [|a l IH]; [reflexivity|]. cbn. rewrite IH. reflexivity. Qed.

Lemma build_insert_placeholders (schema : string) (columns : list string) :
  count_placeholders (build_insert schema columns) = length columns.
Proof.
  unfold build_insert. rewrite map_const_repeat.
  pose proof (count_placeholders_join (length columns)) as Hp.
  pose proof (count_placeholders_fields columns) as Hf.
  unfold count_placeholders in *.
  cbn [app filter]. rewrite !filter_app, !length_app, Hf.
  cbn [app filter]. rewrite filter_app, length_app, Hp.
  cbn [filter length]. lia.
Qed.

(** *** What the normalizer does when it returns *)

Lemma key_eqb_refl (k : key) : key_eqb k k = true.
Proof. destruct k; [apply String.eqb_refl | reflexivity]. Qed.

Lemma dict_get_in (k : key) (row : pydict) :
  In k (keys row) -> exists v, dict_get k row = Some v.
Proof.
  induction row as [|[k' v'] row IH]; intros Hin; [destruct Hin|].
  cbn [dict_get]. destruct (key_eqb k k') eqn:E; [eauto|].
  cbn [keys map fst In] in Hin. destruct Hin as [<-|Hin]; [|auto].
  rewrite key_eqb_refl in E. discriminate.
Qed.

(** The columns are the stripped keys, the values are the stripped fields
    found under the stripped keys, one for each column. *)
Lemma strip_values_returns (row : pydict) (columns : list string)
      (values : list value) :
  strip_values row columns = Ok values ->
  Forall2 (fun col v => exists v0,
             dict_get (KStr col) row = Some v0 /\ v = stripped v0)
    columns values.
Proof.
  revert values. induction columns as [|col columns IH]; intros values H.
  - injection H as <-. constructor.
  - cbn [strip_values] in H.
    destruct (dict_get (KStr col) row) as [v0|] eqn:Hg; [|discriminate].
    destruct (strip_values row columns) as [vs|e]; [|discriminate].
    injection H as <-. constructor; [|apply IH; reflexivity].
    exists v0. split; [exact Hg | reflexivity].
Qed.

Lemma normalize_returns (row : pydict) (columns : list string)
      (values : list value) :
  normalize row = Ok (columns, values) ->
  strip_keys (keys row) = Ok columns
  /\ Forall2 (fun col v => exists v0,
                dict_get (KStr col) row = Some v0 /\ v = stripped v0)
       columns values.
Proof.
  unfold normalize. intros H.
  destruct (strip_keys (keys row)) as [cols|e]; [|discriminate].
  destruct (strip_values row cols) as [vals|e] eqn:Hv; [|discriminate].
  injection H as <- <-. split; [reflexivity|].
  apply strip_values_returns. exact Hv.
Qed.

(** The normalizer returns on every row whose keys are strings without
    surrounding whitespace. *)
Lemma strip_keys_clean (ks : list key) :
  (forall k, In k ks -> exists s, k = KStr s /\ strip s = s) ->
  exists columns,
    strip_keys ks = Ok columns /\ forall c, In c columns -> In (KStr c) ks.
Proof.
  induction ks as [|k ks IH]; intros H.
  - exists []. split; [reflexivity|]. intros c [].
  - destruct (H k (or_introl eq_refl)) as (s & -> & Hs).
    destruct IH as (cols & E & Hin).
    { intros k Hk. apply H. right. exact Hk. }
    exists (s :: cols). cbn [strip_keys]. rewrite E, Hs.
    split; [reflexivity|].
    intros c [<-|Hc]; [left; reflexivity | right; auto].
Qed.

Lemma strip_values_total (row : pydict) (columns : list string) :
  (forall c, In c columns -> In (KStr c) (keys row)) ->
  exists values, strip_values row columns = Ok values.
Proof.
  induction columns as [|col columns IH]; intros H.
  - exists []. reflexivity.
  - destruct (dict_get_in (KStr col) row (H col (or_introl eq_refl)))
      as (v & Hv).
    destruct IH as (vs & E).
    { intros c Hc. apply H. right. exact Hc. }
    cbn [strip_values]. rewrite Hv, E. eauto.
Qed.

Lemma normalize_clean_keys (row : pydict) :
  (forall k, In k (keys row) -> exists s, k = KStr s /\ strip s = s) ->
  exists columns values, normalize row = Ok (columns, values).
Proof.
  intros H. destruct (strip_keys_clean _ H) as (cols & E & Hin).
  destruct (strip_values_total row cols Hin) as (vals & Ev).
  exists cols, vals. unfold normalize. rewrite E, Ev. reflexivity.
Qed.

(** *** After a failed ROLLBACK TO SAVEPOINT *)

(** When [conn.rollback()] returns, the connection is closed (whether or
    not closing succeeds), one second passes, and [connect] is called
    once: the loop goes on with the new session, or stops. *)
Lemma recover_reconnects_once (env : environment) (l : locals) (w : world) :
  env (trace w) (execute (cur l) ROLLBACK_TO_SAVEPOINT) = false ->
  env (trace w ++ [(execute (cur l) ROLLBACK_TO_SAVEPOINT, false)])
      (rollback (conn l)) = true ->
  exists closed,
    let tr := trace w ++ [(execute (cur l) ROLLBACK_TO_SAVEPOINT, false);
                          (rollback (conn l), true);
                          (close (conn l), closed);
                          (sleep 1, true)] in
    let c := connections tr in
    recover env l w =
    if env tr connect then
      if env (tr ++ [(connect, true)]) (cursor c) then
        (Ok (Next, {| conn := c; cur := c; rows_inserted := rows_inserted l |}),
         {| trace := tr ++ [(connect, true); (cursor c, true)];
            log := log w |})
      else
        (Ok (Break, {| conn := c; cur := cur l;
                       rows_inserted := rows_inserted l |}),
         {| trace := tr ++ [(connect, true); (cursor c, false)];
            log := log w ++ [ReconnectionFailed] |})
    else
      (Ok (Break, l),
       {| trace := tr ++ [(connect, false)];
          log := log w ++ [ReconnectionFailed] |}).
Proof.
  intros Hsp Hrb.
  exists (env (trace w ++ [(execute (cur l) ROLLBACK_TO_SAVEPOINT, false);
                           (rollback (conn l), true)]) (close (conn l))).
  cbv zeta.
  unfold recover, try_except, bind, do_connect, do_cursor, do_sleep, bind,
    db, ret, logging, record.
  cbn [trace log]. rewrite Hsp. cbn [trace log]. rewrite Hrb.
  cbn [trace log]. rewrite <- !app_assoc. cbn [app].
  destruct (env _ (close (conn l))); cbn [trace log];
    rewrite <- !app_assoc; cbn [app];
    (destruct (env _ connect); cbn [trace log];
     [rewrite <- !app_assoc; cbn [app];
      destruct (env _ (cursor _)); cbn [trace log];
      rewrite <- ?app_assoc; reflexivity
     | rewrite <- ?app_assoc; reflexivity]).
Qed.

(** *** The run in which nothing fails *)

Section SuccessPath.
Variable schema : string.
Variable env : environment.
Hypothesis env_ok : forall tr c, on_success_path c = true -> env tr c = true.

Lemma db_returns (c : call) (w : world) :
  on_success_path c = true -> db env c w = (Ok tt, record (c, true) w).
Proof. intros Hc. unfold db. rewrite (env_ok _ _ Hc). reflexivity. Qed.

Lemma row_body_inserts (idx : nat) (row : pydict) (l : locals) (w : world) :
  loadable_row row = true ->
  exists w',
    row_body schema env idx row l w =
    (Ok (Next, {| conn := conn l; cur := cur l;
                  rows_inserted := rows_inserted l + 1 |}), w')
    /\ log w' = log w.
Proof.
  unfold loadable_row. intros Hrow.
  destruct (normalize row) as [[columns values]|e] eqn:Hn; [|discriminate].
  apply negb_true_iff in Hrow.
  unfold row_body, bind, lift. rewrite Hn, Hrow.
  unfold try_except, bind.
  rewrite !db_returns by reflexivity.
  eexists. split; reflexivity.
Qed.

Lemma for_rows_inserts (rows : list pydict) :
  forallb loadable_row rows = true ->
  forall (idx : nat) (l : locals) (w : world),
  exists w',
    for_rows schema env idx rows l w =
    (Ok {| conn := conn l; cur := cur l;
           rows_inserted := rows_inserted l + length rows |}, w')
    /\ log w' = log w.
Proof.
  induction rows as [|row rows IH]; intros Hrows idx l w.
  - exists w. destruct l as [c k n]. cbn. rewrite Nat.add_0_r. split; reflexivity.
  - cbn [forallb] in Hrows. apply andb_true_iff in Hrows as [Hrow Hrest].
    destruct (row_body_inserts idx row l w Hrow) as (w1 & E1 & L1).
    destruct (IH Hrest (S idx)
                {| conn := conn l; cur := cur l;
                   rows_inserted := rows_inserted l + 1 |} w1)
      as (w2 & E2 & L2).
    exists w2. cbn [for_rows]. unfold bind at 1. rewrite E1, E2.
    cbn [conn cur rows_inserted length].
    rewrite <- Nat.add_assoc. split; [reflexivity|]. congruence.
Qed.

Lemma finalize_commits (l : locals) (w : world) :
  exists w',
    finalize env l w = (Ok tt, w')
    /\ log w' = log w ++ [Committed (rows_inserted l)]
    /\ In (commit (conn l), true) (trace w').
Proof.
  unfold finalize, try_finally, try_except, bind.
  rewrite db_returns by reflexivity.
  unfold logging, db, record. cbn [trace log].
  destruct (env _ (cursor_close (cur l))); cbn [trace log].
  - destruct (env _ (close (conn l))); cbn [trace log];
      (eexists; split; [reflexivity|]; split; [reflexivity|]);
      cbn [trace]; rewrite !in_app_iff; cbn; tauto.
  - unfold ret. eexists. split; [reflexivity|]. split; [reflexivity|].
    cbn [trace]. rewrite !in_app_iff. cbn. tauto.
Qed.

Lemma load_commits (lines : list (list string)) (w : world) :
  forallb loadable_row (DictReader lines) = true ->
  trace w = [] ->
  exists w',
    load schema env lines w = (Ok tt, w')
    /\ log w' =
       log w ++ [ParsedCSV (length (DictReader lines)) (fieldnames lines);
                 Connected;
                 Committed (length (DictReader lines));
                 DoneProcessing (length (DictReader lines))]
    /\ In (commit 0, true) (trace w').
Proof.
  intros Hrows Hw.
  unfold load. unfold bind at 1. unfold logging at 1.
  unfold bind at 1. unfold try_except at 1.
  unfold bind at 1. unfold do_connect at 1. unfold bind at 1.
  rewrite db_returns by reflexivity. unfold ret at 1.
  unfold bind at 1. unfold do_cursor at 1. unfold bind at 1.
  rewrite db_returns by reflexivity. unfold ret at 1.
  unfold bind at 1. unfold logging at 1. unfold ret at 1.
  cbn [trace log record]. rewrite Hw. cbn [connections filter length].
  unfold bind at 1.
  match goal with
  | |- context [for_rows _ _ _ _ ?l ?w0] =>
      destruct (for_rows_inserts _ Hrows 1 l w0) as (w1 & E1 & L1)
  end.
  rewrite E1. cbn [conn cur rows_inserted Nat.add].
  unfold bind at 1.
  match goal with
  | |- context [finalize _ ?l ?w0] =>
      destruct (finalize_commits l w0) as (w2 & E2 & L2 & T2)
  end.
  rewrite E2. unfold logging. cbn [conn rows_inserted] in *.
  eexists. split; [reflexivity|]. cbn [trace log].
  split; [|exact T2].
  rewrite L2, L1. cbn [log]. rewrite <- !app_assoc. reflexivity.
Qed.

End SuccessPath.



(** *** One pass through the loop body, whatever the database does *)

Ltac answer_calls :=
  repeat lazymatch goal with
         | |- context [if ?env ?tr ?c then _ else _] =>
             let E := fresh "E" in
             destruct (env tr c) eqn:E; cbn [trace log fst snd]
         end.

Ltac guess k := first [exists true; k | exists false; k].

Ltac count_records :=
  unfold skipped, failed, released;
  cbn [trace log];
  rewrite ?filter_app, ?length_app;
  cbn [filter length conn cur rows_inserted];
  try lia.

(** Each row read adds one to the rows inserted, skipped or failed; the
    inserted count grows with the released savepoints; the loop is left
    only after "Reconnection failed"; and an exception that leaves the body
    is an unguarded one. *)
Lemma row_body_step (schema : string) (env : environment) (idx : nat)
      (row : pydict) (l : locals) (w : world) :
  match row_body schema env idx row l w with
  | (Raise e, _) => unguarded e = true
  | (Ok (fl, l'), w') =>
      rows_inserted l' + skipped (log w') + failed (log w') =
        S (rows_inserted l + skipped (log w) + failed (log w))
      /\ rows_inserted l' + released (trace w) =
           rows_inserted l + released (trace w')
      /\ (fl = Break -> In ReconnectionFailed (log w'))
      /\ (In ReconnectionFailed (log w) -> In ReconnectionFailed (log w'))
  end.
Proof.
  unfold row_body, bind, lift.
  destruct (normalize row) as [[columns values]|e] eqn:Hn.
  2:{ unfold normalize in Hn.
      destruct (strip_keys (keys row)) as [cols|e1] eqn:Hk.
      - destruct (strip_values row cols) as [vals|e2] eqn:Hv; [discriminate|].
        injection Hn as <-. clear Hk. revert e2 Hv.
        induction cols as [|c cols IH]; intros e2 Hv; [discriminate|].
        cbn [strip_values] in Hv.
        destruct (dict_get (KStr c) row); [|injection Hv as <-; reflexivity].
        destruct (strip_values row cols); [discriminate|].
        injection Hv as <-. apply (IH e). reflexivity.
      - injection Hn as <-. revert e1 Hk.
        induction (keys row) as [|[s|] ks IH]; intros e1 Hk.
        + discriminate.
        + cbn [strip_keys] in Hk. destruct (strip_keys ks); [discriminate|].
          injection Hk as <-. apply (IH e). reflexivity.
        + injection Hk as <-. reflexivity. }
  destruct (all_empty values).
  - unfold logging, ret. count_records.
    repeat split; try lia; try discriminate.
    intros H. apply in_or_app. left. exact H.
  - unfold try_except, recover, try_except, bind, do_connect, do_cursor,
      do_sleep, bind, db, ret, logging, record.
    cbn [trace log fst snd].
    answer_calls; try reflexivity;
      (split; [count_records|]); (split; [count_records|]);
      (split; [first [discriminate
                     | intros _; cbn [log]; rewrite ?in_app_iff; cbn; tauto]
              | cbn [log]; rewrite ?in_app_iff; cbn; tauto]).
Qed.

Lemma for_rows_step (schema : string) (env : environment)
      (rows : list pydict) :
  forall (idx : nat) (l : locals) (w : world),
  match for_rows schema env idx rows l w with
  | (Raise e, _) => unguarded e = true
  | (Ok l', w') =>
      exists p,
        p <= length rows
        /\ rows_inserted l' + skipped (log w') + failed (log w') =
             rows_inserted l + skipped (log w) + failed (log w) + p
        /\ (p < length rows -> In ReconnectionFailed (log w'))
        /\ rows_inserted l' + released (trace w) =
             rows_inserted l + released (trace w')
        /\ (In ReconnectionFailed (log w) -> In ReconnectionFailed (log w'))
  end.
Proof.
  induction rows as [|row rows IH]; intros idx l w.
  - cbn. exists 0. repeat split; try lia. auto.
  - cbn [for_rows]. unfold bind at 1.
    pose proof (row_body_step schema env idx row l w) as Hrow.
    destruct (row_body schema env idx row l w) as [[[fl l1]|e] w1];
      [|exact Hrow].
    destruct Hrow as (Hcount & Hrel & Hbreak & Hkeep).
    destruct fl.
    + specialize (IH (S idx) l1 w1).
      destruct (for_rows schema env (S idx) rows l1 w1) as [[l2|e] w2];
        [|exact IH].
      destruct IH as (p & Hp & Hc2 & Hlt & Hr2 & Hk2).
      exists (S p). cbn [length]. repeat split; try lia.
      * intros H. apply Hlt. lia.
      * auto.
    + unfold ret. exists 1. cbn [length]. repeat split; try lia.
      * intros _. auto.
      * exact Hkeep.
Qed.

(** *** The end of the batch *)

Lemma finalize_shape (env : environment) (l : locals) (w : world) :
  exists committed rolled_back cursor_closed closed : bool,
    finalize env l w =
    (Ok tt,
     {| trace :=
          trace w
          ++ [(commit (conn l), committed)]
          ++ (if committed then [] else [(rollback (conn l), rolled_back)])
          ++ [(cursor_close (cur l), cursor_closed)]
          ++ (if cursor_closed then [(close (conn l), closed)] else []);
        log :=
          log w ++ [if committed then Committed (rows_inserted l)
                    else CommitFailed (DatabaseError (commit (conn l)))] |}).
Proof.
  unfold finalize, try_finally, try_except, bind, db, ret, logging, record.
  cbn [trace log fst snd].
  answer_calls.
  all: guess ltac:(guess ltac:(guess ltac:(guess ltac:(
         cbn [app]; repeat rewrite <- (app_assoc (trace w)); cbn [app];
         reflexivity)))).
Qed.

(** [finalize] never raises.  It calls [commit] once; [conn.rollback()]
    only after a failed commit; then [cur.close()], and [conn.close()] only
    when [cur.close()] returned. *)
Theorem finalize_never_raises (env : environment) (l : locals) (w : world) :
  exists committed rolled_back cursor_closed closed : bool,
    finalize env l w =
    (Ok tt,
     {| trace :=
          trace w
          ++ [(commit (conn l), committed)]
          ++ (if committed then [] else [(rollback (conn l), rolled_back)])
          ++ [(cursor_close (cur l), cursor_closed)]
          ++ (if cursor_closed then [(close (conn l), closed)] else []);
        log :=
          log w ++ [if committed then Committed (rows_inserted l)
                    else CommitFailed (DatabaseError (commit (conn l)))] |}).
Proof. apply finalize_shape. Qed.

(** *** The whole run *)

Lemma load_unfold (schema : string) (env : environment)
      (lines : list (list string)) (w : world) :
  load schema env lines w =
  let parsed := ParsedCSV (length (DictReader lines)) (fieldnames lines) in
  let c := connections (trace w) in
  if env (trace w) connect then
    if env (trace w ++ [(connect, true)]) (cursor c) then
      match for_rows schema env 1 (DictReader lines)
              {| conn := c; cur := c; rows_inserted := 0 |}
              {| trace := trace w ++ [(connect, true); (cursor c, true)];
                 log := log w ++ [parsed; Connected] |} with
      | (Ok l, w2) =>
          match finalize env l w2 with
          | (Ok _, w3) =>
              (Ok tt, {| trace := trace w3;
                         log := log w3 ++ [DoneProcessing (rows_inserted l)] |})
          | (Raise e, w3) => (Raise e, w3)
          end
      | (Raise e, w2) => (Raise e, w2)
      end
    else
      (Ok tt,
       {| trace := trace w ++ [(connect, true); (cursor c, false)];
          log := log w ++ [parsed; DBConnectionFailed (DatabaseError (cursor c))] |})
  else
    (Ok tt,
     {| trace := trace w ++ [(connect, false)];
        log := log w ++ [parsed; DBConnectionFailed (DatabaseError connect)] |}).
Proof.
  cbv zeta.
  unfold load, try_except, do_connect, do_cursor, bind, db, ret, logging,
    record.
  cbn [trace log fst snd].
  destruct (env (trace w) connect); cbn [trace log fst snd].
  - destruct (env (trace w ++ [(connect, true)]) (cursor _));
      cbn [trace log fst snd]; rewrite <- ?(app_assoc (trace w)),
        <- ?(app_assoc (log w)); cbn [app]; [|reflexivity].
    destruct (for_rows _ _ _ _ _ _) as [[l|e] w2]; [|reflexivity].
    destruct (finalize env l w2) as [[[]|e] w3]; reflexivity.
  - rewrite <- ?(app_assoc (log w)). reflexivity.
Qed.

Lemma run_load (schema : string) (env : environment) (b : blob) :
  match b with
  | Text lines =>
      run schema env b =
      load schema env lines
        {| trace := []; log := [EventReceived; AttemptingDBConnect] |}
  | Replaced lines =>
      run schema env b =
      load schema env lines
        {| trace := [];
           log := [EventReceived; AttemptingDBConnect; DecodedWithReplacement] |}
  | NotFound =>
      run schema env b =
      (Ok tt, {| trace := [];
                 log := [EventReceived; AttemptingDBConnect; BlobDoesNotExist] |})
  | Unreadable =>
      run schema env b =
      (Raise DownloadError,
       {| trace := []; log := [EventReceived; AttemptingDBConnect] |})
  | Malformed replaced =>
      run schema env b =
      (Raise CsvError,
       {| trace := [];
          log := if replaced
                 then [EventReceived; AttemptingDBConnect; DecodedWithReplacement]
                 else [EventReceived; AttemptingDBConnect] |})
  end.
Proof. destruct b as [| | | |[|]]; reflexivity. Qed.

Lemma load_raises (schema : string) (env : environment)
      (lines : list (list string)) (w w' : world) (e : exn) :
  load schema env lines w = (Raise e, w') -> unguarded e = true.
Proof.
  rewrite load_unfold. cbv zeta.
  destruct (env (trace w) connect); [|discriminate].
  destruct (env _ (cursor _)); [|discriminate].
  match goal with
  | |- context [for_rows ?s ?v ?i ?r ?l ?w0] =>
      pose proof (for_rows_step s v r i l w0) as Hloop;
      destruct (for_rows s v i r l w0) as [[l1|e1] w2]
  end.
  - destruct (finalize_shape env l1 w2) as (b1 & b2 & b3 & b4 & E).
    rewrite E. discriminate.
  - intros [= <- _]. exact Hloop.
Qed.

(** A database error leaves [main] only from the [conn.rollback()] of
    line 92: whatever [connect], [cursor], [execute], [commit] or [close]
    do, the exceptions that reach the caller are those of lines 62-63, of
    the storage client, of the reader at line 47, and of that call. *)
Theorem only_unguarded_exceptions_escape
        (schema : string) (env : environment) (b : blob)
        (e : exn) (w : world) :
  run schema env b = (Raise e, w) -> unguarded e = true.
Proof.
  pose proof (run_load schema env b) as H.
  destruct b as [|lines|lines| |replaced]; rewrite H.
  - discriminate.
  - apply load_raises.
  - apply load_raises.
  - intros [= <- _]. reflexivity.
  - intros [= <- _]. reflexivity.
Qed.

Lemma only_unguarded_exceptions_escape_witness :
  unguarded (DatabaseError (rollback 0)) = true.
Proof.
  apply (only_unguarded_exceptions_escape "company" lost_connection
           (Text two_rows) _
           (snd (run "company" lost_connection (Text two_rows)))).
  reflexivity.
Defined.

(** When the connection cannot be established, [main] returns without
    reading a row: it makes no call after the failed one and logs the
    failure.  When [connect] returned and [conn.cursor()] raised, the
    connection is not closed. *)
Theorem no_row_without_connection
        (schema : string) (env : environment) (lines : list (list string)) :
  env [] connect && env [(connect, true)] (cursor 0) = false ->
  run schema env (Text lines) =
  (Ok tt,
   {| trace := if env [] connect
               then [(connect, true); (cursor 0, false)]
               else [(connect, false)];
      log := [EventReceived; AttemptingDBConnect;
              ParsedCSV (length (DictReader lines)) (fieldnames lines);
              DBConnectionFailed
                (DatabaseError (if env [] connect then cursor 0 else connect))] |}).
Proof.
  intros H. rewrite (run_load schema env (Text lines)), load_unfold.
  cbv zeta. cbn [trace log app connections filter length].
  destruct (env [] connect); [|reflexivity].
  cbn [andb] in H. rewrite H. reflexivity.
Qed.

Lemma no_row_without_connection_witness :
  run "company" unreachable (Text two_rows) =
  (Ok tt,
   {| trace := [(connect, false)];
      log := [EventReceived; AttemptingDBConnect;
              ParsedCSV 2 (Some ["id"]);
              DBConnectionFailed (DatabaseError connect)] |}).
Proof.
  apply (no_row_without_connection "company" unreachable two_rows).
  reflexivity.
Defined.

Lemma load_returns (schema : string) (env : environment)
      (lines : list (list string)) (w w' : world) :
  load schema env lines w = (Ok tt, w') ->
  In Connected (log w') ->
  ~ In Connected (log w) ->
  exists (l : locals) (p : nat) (w2 : world)
         (committed rolled_back cursor_closed closed : bool),
    p <= length (DictReader lines)
    /\ rows_inserted l + skipped (log w2) + failed (log w2) =
         skipped (log w) + failed (log w) + p
    /\ (p < length (DictReader lines) -> In ReconnectionFailed (log w2))
    /\ rows_inserted l + released (trace w) = released (trace w2)
    /\ trace w' =
         trace w2
         ++ [(commit (conn l), committed)]
         ++ (if committed then [] else [(rollback (conn l), rolled_back)])
         ++ [(cursor_close (cur l), cursor_closed)]
         ++ (if cursor_closed then [(close (conn l), closed)] else [])
    /\ log w' =
         log w2
         ++ [if committed then Committed (rows_inserted l)
             else CommitFailed (DatabaseError (commit (conn l)));
             DoneProcessing (rows_inserted l)].
Proof.
  rewrite load_unfold. cbv zeta.
  destruct (env (trace w) connect).
  2:{ intros [= <-] Hin Hnot. cbn [log] in Hin.
      apply in_app_or in Hin as [Hin|Hin]; [contradiction|].
      cbn in Hin. intuition discriminate. }
  destruct (env _ (cursor _)).
  2:{ intros [= <-] Hin Hnot. cbn [log] in Hin.
      apply in_app_or in Hin as [Hin|Hin]; [contradiction|].
      cbn in Hin. intuition discriminate. }
  match goal with
  | |- context [for_rows ?s ?v ?i ?r ?l ?w0] =>
      pose proof (for_rows_step s v r i l w0) as Hloop;
      destruct (for_rows s v i r l w0) as [[l1|e1] w2]
  end; [|discriminate].
  destruct (finalize_shape env l1 w2) as (b1 & b2 & b3 & b4 & E).
  rewrite E. intros [= <-] _ _.
  destruct Hloop as (p & Hp & Hcount & Hlt & Hrel & _).
  exists l1, p, w2, b1, b2, b3, b4.
  cbn [trace log rows_inserted] in *.
  split; [exact Hp|]. split.
  { revert Hcount. unfold skipped, failed.
    rewrite !filter_app, !length_app. cbn [filter length]. lia. }
  split; [exact Hlt|]. split.
  { revert Hrel. unfold released.
    rewrite !filter_app, !length_app. cbn [filter length]. lia. }
  split; [reflexivity|].
  rewrite <- app_assoc. reflexivity.
Qed.

Lemma run_returns (schema : string) (env : environment) (b : blob) (w : world) :
  run schema env b = (Ok tt, w) ->
  In Connected (log w) ->
  exists (l : locals) (p : nat) (w2 : world)
         (committed rolled_back cursor_closed closed : bool),
    p <= length (rows_of b)
    /\ rows_inserted l + skipped (log w2) + failed (log w2) = p
    /\ (p < length (rows_of b) -> In ReconnectionFailed (log w2))
    /\ rows_inserted l = released (trace w2)
    /\ trace w =
         trace w2
         ++ [(commit (conn l), committed)]
         ++ (if committed then [] else [(rollback (conn l), rolled_back)])
         ++ [(cursor_close (cur l), cursor_closed)]
         ++ (if cursor_closed then [(close (conn l), closed)] else [])
    /\ log w =
         log w2
         ++ [if committed then Committed (rows_inserted l)
             else CommitFailed (DatabaseError (commit (conn l)));
             DoneProcessing (rows_inserted l)].
Proof.
  pose proof (run_load schema env b) as H.
  destruct b as [|lines|lines| |replaced]; rewrite H; intros Hrun Hin.
  - injection Hrun as <-. cbn in Hin. intuition discriminate.
  - destruct (load_returns _ _ _ _ _ Hrun Hin)
      as (l & p & w2 & b1 & b2 & b3 & b4 & Hp & Hc & Hlt & Hr & Ht & Hl).
    { cbn. intuition discriminate. }
    exists l, p, w2, b1, b2, b3, b4. cbn in Hc, Hr.
    rewrite Nat.add_0_r in Hr. auto 10.
  - destruct (load_returns _ _ _ _ _ Hrun Hin)
      as (l & p & w2 & b1 & b2 & b3 & b4 & Hp & Hc & Hlt & Hr & Ht & Hl).
    { cbn. intuition discriminate. }
    exists l, p, w2, b1, b2, b3, b4. cbn in Hc, Hr.
    rewrite Nat.add_0_r in Hr. auto 10.
  - discriminate.
  - discriminate.
Qed.

Lemma counts_after_loop (lg : list log_record) (r : log_record) (n : nat) :
  match r with Committed _ | CommitFailed _ => True | _ => False end ->
  skipped (lg ++ [r; DoneProcessing n]) = skipped lg
  /\ failed (lg ++ [r; DoneProcessing n]) = failed lg.
Proof.
  unfold skipped, failed. rewrite !filter_app, !length_app.
  destruct r; try contradiction; cbn; intros _; split; lia.
Qed.

(** Every row is accounted for.  When [main] returns after connecting,
    the inserted count it reports, the rows logged as skipped and the rows
    logged as failed add up to at most the number of rows, and to exactly
    that number unless "Reconnection failed" was logged. *)
Theorem rows_accounted
        (schema : string) (env : environment) (b : blob) (w : world) :
  run schema env b = (Ok tt, w) ->
  In Connected (log w) ->
  exists n lg,
    log w = lg ++ [DoneProcessing n]
    /\ n + skipped (log w) + failed (log w) <= length (rows_of b)
    /\ (~ In ReconnectionFailed (log w) ->
        n + skipped (log w) + failed (log w) = length (rows_of b)).
Proof.
  intros Hrun Hin.
  destruct (run_returns _ _ _ _ Hrun Hin)
    as (l & p & w2 & b1 & b2 & b3 & b4 & Hp & Hc & Hlt & Hr & Ht & Hl).
  exists (rows_inserted l).
  eexists. split.
  { rewrite Hl.
    change [?a; ?d] with ([a] ++ [d]). rewrite app_assoc. reflexivity. }
  destruct (counts_after_loop (log w2)
              (if b1 then Committed (rows_inserted l)
               else CommitFailed (DatabaseError (commit (conn l))))
              (rows_inserted l)) as [Hs Hf].
  { destruct b1; exact I. }
  rewrite Hl, Hs, Hf. split; [lia|].
  intros Hno.
  destruct (Nat.eq_dec p (length (rows_of b))) as [->|Hne]; [lia|].
  exfalso. apply Hno. apply in_or_app. left. apply Hlt. lia.
Qed.

Lemma rows_accounted_witness :
  exists n lg,
    log (snd (run "company" row_rejected (Text two_rows))) =
      lg ++ [DoneProcessing n]
    /\ n + skipped (log (snd (run "company" row_rejected (Text two_rows)))) +
       failed (log (snd (run "company" row_rejected (Text two_rows))))
       <= length (rows_of (Text two_rows))
    /\ (~ In ReconnectionFailed
            (log (snd (run "company" row_rejected (Text two_rows)))) ->
        n + skipped (log (snd (run "company" row_rejected (Text two_rows)))) +
        failed (log (snd (run "company" row_rejected (Text two_rows))))
        = length (rows_of (Text two_rows))).
Proof.
  apply (rows_accounted "company" row_rejected (Text two_rows)).
  - reflexivity.
  - vm_compute. do 3 right. left. reflexivity.
Defined.

(** The inserted count [main] reports when it returns after connecting
    is the number of rows whose RELEASE SAVEPOINT returned. *)
Theorem inserted_is_released
        (schema : string) (env : environment) (b : blob) (w : world) :
  run schema env b = (Ok tt, w) ->
  In Connected (log w) ->
  exists lg, log w = lg ++ [DoneProcessing (released (trace w))].
Proof.
  intros Hrun Hin.
  destruct (run_returns _ _ _ _ Hrun Hin)
    as (l & p & w2 & b1 & b2 & b3 & b4 & Hp & Hc & Hlt & Hr & Ht & Hl).
  assert (Hrel : released (trace w) = rows_inserted l).
  { rewrite Ht, Hr. unfold released.
    rewrite !filter_app, !length_app.
    destruct b1, b3; cbn; lia. }
  rewrite Hrel. eexists. rewrite Hl.
  change [?a; ?d] with ([a] ++ [d]). rewrite app_assoc. reflexivity.
Qed.

Lemma inserted_is_released_witness :
  exists lg,
    log (snd (run "company" reconnected (Text two_rows))) =
    lg ++ [DoneProcessing
             (released (trace (snd (run "company" reconnected (Text two_rows)))))].
Proof.
  apply (inserted_is_released "company" reconnected (Text two_rows)).
  - reflexivity.
  - vm_compute. do 3 right. left. reflexivity.
Defined.

(** When [main] returns after connecting, its last calls are the
    commit, [conn.rollback()] if the commit failed, [cur.close()], and
    [conn.close()] if [cur.close()] returned; "Committed" is logged when
    the commit returned, "Commit failed" otherwise. *)
Theorem returns_through_commit_and_close
        (schema : string) (env : environment) (b : blob) (w : world) :
  run schema env b = (Ok tt, w) ->
  In Connected (log w) ->
  exists (tr : list event) (lg : list log_record) (c k n : nat)
         (committed rolled_back cursor_closed closed : bool),
    trace w =
      tr
      ++ [(commit c, committed)]
      ++ (if committed then [] else [(rollback c, rolled_back)])
      ++ [(cursor_close k, cursor_closed)]
      ++ (if cursor_closed then [(close c, closed)] else [])
    /\ log w =
         lg ++ [if committed then Committed n
                else CommitFailed (DatabaseError (commit c));
                DoneProcessing n].
Proof.
  intros Hrun Hin.
  destruct (run_returns _ _ _ _ Hrun Hin)
    as (l & p & w2 & b1 & b2 & b3 & b4 & Hp & Hc & Hlt & Hr & Ht & Hl).
  exists (trace w2), (log w2), (conn l), (cur l), (rows_inserted l),
    b1, b2, b3, b4.
  split; assumption.
Qed.

Lemma returns_through_commit_and_close_witness :
  exists (tr : list event) (lg : list log_record) (c k n : nat)
         (committed rolled_back cursor_closed closed : bool),
    trace (snd (run "company" reconnected (Text two_rows))) =
      tr
      ++ [(commit c, committed)]
      ++ (if committed then [] else [(rollback c, rolled_back)])
      ++ [(cursor_close k, cursor_closed)]
      ++ (if cursor_closed then [(close c, closed)] else [])
    /\ log (snd (run "company" reconnected (Text two_rows))) =
         lg ++ [if committed then Committed n
                else CommitFailed (DatabaseError (commit c));
                DoneProcessing n].
Proof.
  apply (returns_through_commit_and_close "company" reconnected (Text two_rows)).
  - reflexivity.
  - vm_compute. do 3 right. left. reflexivity.
Defined.

(** *** The normalizer's domain and range *)

Lemma key_eqb_eq (a b : key) : key_eqb a b = true -> a = b.
Proof.
  destruct a as [x|], b as [y|]; cbn; try discriminate; [|reflexivity].
  intros H. apply String.eqb_eq in H. congruence.
Qed.

Lemma dict_get_some_in (k : key) (row : pydict) (v : value) :
  dict_get k row = Some v -> In k (keys row).
Proof.
  induction row as [|[k' v'] row IH]; [discriminate|].
  cbn [dict_get keys map fst In].
  destruct (key_eqb k k') eqn:E.
  - intros _. left. symmetry. apply key_eqb_eq. exact E.
  - intros H. right. apply IH. exact H.
Qed.

Lemma strip_keys_returns (ks : list key) (columns : list string) :
  strip_keys ks = Ok columns ->
  Forall2 (fun k c => exists s, k = KStr s /\ c = strip s) ks columns.
Proof.
  revert columns. induction ks as [|[s|] ks IH]; intros columns H.
  - injection H as <-. constructor.
  - cbn [strip_keys] in H.
    destruct (strip_keys ks) as [cols|e]; [|discriminate].
    injection H as <-. constructor; [eauto | apply IH; reflexivity].
  - discriminate.
Qed.

Lemma strip_keys_total (row : pydict) (ks : list key) :
  (forall k, In k ks -> exists s, k = KStr s /\ In (KStr (strip s)) (keys row)) ->
  exists columns,
    strip_keys ks = Ok columns
    /\ forall c, In c columns -> In (KStr c) (keys row).
Proof.
  induction ks as [|k ks IH]; intros H.
  - exists []. split; [reflexivity|]. intros c [].
  - destruct (H k (or_introl eq_refl)) as (s & -> & Hs).
    destruct IH as (cols & E & Hin).
    { intros k Hk. apply H. right. exact Hk. }
    exists (strip s :: cols). cbn [strip_keys]. rewrite E.
    split; [reflexivity|].
    intros c [<-|Hc]; [exact Hs | auto].
Qed.

Lemma stripped_keys_found (row : pydict) (ks : list key)
      (columns : list string) (values : list value) :
  Forall2 (fun k c => exists s, k = KStr s /\ c = strip s) ks columns ->
  Forall2 (fun col v => exists v0,
             dict_get (KStr col) row = Some v0 /\ v = stripped v0)
    columns values ->
  forall k, In k ks -> exists s, k = KStr s /\ In (KStr (strip s)) (keys row).
Proof.
  intros Hk. revert values.
  induction Hk as [|k c ks cols (s & -> & ->) _ IH]; intros values Hv k0 Hin.
  - destruct Hin.
  - inversion Hv as [|? v ? vs (v0 & Hg & _) Hrest]; subst.
    destruct Hin as [<-|Hin].
    + exists s. split; [reflexivity|].
      apply (dict_get_some_in _ _ _ Hg).
    + apply (IH vs Hrest k0 Hin).
Qed.

(** The normalizer returns exactly on the rows whose keys are all
    strings and whose stripped keys are keys of the row. *)
Theorem normalize_returns_iff (row : pydict) :
  (exists columns values, normalize row = Ok (columns, values))
  <->
  (forall k, In k (keys row) ->
     exists s, k = KStr s /\ In (KStr (strip s)) (keys row)).
Proof.
  split.
  - intros (columns & values & H).
    apply normalize_returns in H as [Hk Hv].
    apply strip_keys_returns in Hk.
    apply (stripped_keys_found row (keys row) columns values Hk Hv).
  - intros H.
    destruct (strip_keys_total row (keys row) H) as (cols & E & Hin).
    destruct (strip_values_total row cols Hin) as (vals & Ev).
    exists cols, vals. unfold normalize. rewrite E, Ev. reflexivity.
Qed.

Lemma normalize_returns_iff_witness :
  exists columns values, normalize one_record = Ok (columns, values).
Proof.
  apply (proj2 (normalize_returns_iff one_record)).
  intros k [<-|[]]. exists "id". split; [reflexivity|]. left. reflexivity.
Defined.

(** What the normalizer returns is stripped: stripping a column name or
    a value again changes nothing, and there is one value for each
    column. *)
Theorem normalize_output_is_stripped
        (row : pydict) (columns : list string) (values : list value) :
  normalize row = Ok (columns, values) ->
  Forall (fun c => strip c = c) columns
  /\ Forall (fun v => stripped v = v) values
  /\ length values = length columns.
Proof.
  intros H. apply normalize_returns in H as [Hk Hv].
  apply strip_keys_returns in Hk.
  split; [|split].
  - clear Hv. induction Hk as [|k c ks cols (s & _ & ->) _ IH];
      constructor; [apply PyStrFacts.strip_idempotent | exact IH].
  - clear Hk. induction Hv as [|c v cols vals (v0 & _ & ->) _ IH];
      constructor; [|exact IH].
    destruct v0; cbn [stripped]; [|reflexivity|reflexivity].
    rewrite PyStrFacts.strip_idempotent. reflexivity.
  - symmetry. apply (Forall2_length Hv).
Qed.

Lemma normalize_output_is_stripped_witness :
  Forall (fun c => strip c = c) ["id"]
  /\ Forall (fun v => stripped v = v) [VStr "1"]
  /\ length [VStr "1"] = length ["id"].
Proof.
  apply (normalize_output_is_stripped one_record). reflexivity.
Defined.

(** The statement built for a row has one placeholder for each value
    bound to it. *)
Theorem one_placeholder_for_each_value
        (schema : string) (row : pydict)
        (columns : list string) (values : list value) :
  normalize row = Ok (columns, values) ->
  count_placeholders (build_insert schema columns) = length values.
Proof.
  intros H. rewrite build_insert_placeholders.
  apply normalize_returns in H as [_ Hv].
  apply (Forall2_length Hv).
Qed.

Lemma one_placeholder_for_each_value_witness :
  count_placeholders (build_insert "company" ["id"]) = length [VStr "1"].
Proof.
  apply (one_placeholder_for_each_value "company" one_record). reflexivity.
Defined.

(** *** A rejected row *)

(** When the INSERT of a row raises and ROLLBACK TO SAVEPOINT returns,
    the loop goes on with the same session and the same inserted count; the
    row is logged with its statement, its values and the error; and the
    calls made are SAVEPOINT, the INSERT, the rendering of the statement
    and ROLLBACK TO SAVEPOINT: neither [conn.rollback()] nor a commit. *)
Theorem rejected_row_is_rolled_back
        (schema : string) (env : environment) (idx : nat) (row : pydict)
        (l : locals) (w : world)
        (columns : list string) (values : list value) (rendered : bool) :
  normalize row = Ok (columns, values) ->
  all_empty values = false ->
  env (trace w) (execute (cur l) SAVEPOINT) = true ->
  env (trace w ++ [(execute (cur l) SAVEPOINT, true)])
      (execute (cur l) (INSERT (build_insert schema columns) values)) = false ->
  env (trace w
       ++ [(execute (cur l) SAVEPOINT, true);
           (execute (cur l) (INSERT (build_insert schema columns) values), false)])
      (as_string (conn l)) = rendered ->
  env (trace w
       ++ [(execute (cur l) SAVEPOINT, true);
           (execute (cur l) (INSERT (build_insert schema columns) values), false);
           (as_string (conn l), rendered)])
      (execute (cur l) ROLLBACK_TO_SAVEPOINT) = true ->
  row_body schema env idx row l w =
  (Ok (Next, l),
   {| trace :=
        trace w
        ++ [(execute (cur l) SAVEPOINT, true);
            (execute (cur l) (INSERT (build_insert schema columns) values), false);
            (as_string (conn l), rendered);
            (execute (cur l) ROLLBACK_TO_SAVEPOINT, true)];
      log :=
        log w
        ++ [InsertFailed idx
              (if rendered then AsString (render (build_insert schema columns))
               else Str (build_insert schema columns));
            Values values;
            RowError idx
              (DatabaseError
                 (execute (cur l)
                    (INSERT (build_insert schema columns) values)))] |}).
Proof.
  intros Hn He Hsp Hins Hren Hrb.
  unfold row_body, bind, lift. rewrite Hn, He.
  unfold try_except, recover, try_except, bind, db, ret, logging, record.
  cbn [trace log fst snd]. rewrite Hsp. cbn [trace log fst snd].
  rewrite Hins. cbn [trace log fst snd].
  rewrite <- (app_assoc (trace w)). cbn [app]. rewrite Hren.
  destruct rendered; cbn [trace log fst snd];
    rewrite <- !(app_assoc (trace w)); cbn [app]; rewrite Hrb;
    cbn [trace log fst snd];
    rewrite <- ?(app_assoc (trace w)), <- ?(app_assoc (log w));
    reflexivity.
Qed.

Lemma rejected_row_is_rolled_back_witness :
  row_body "company" insert_fails 1 one_record start empty_world =
  (Ok (Next, start),
   {| trace :=
        [(execute 0 SAVEPOINT, true);
         (execute 0 (INSERT (build_insert "company" ["id"]) [VStr "1"]), false);
         (as_string 0, true);
         (execute 0 ROLLBACK_TO_SAVEPOINT, true)];
      log :=
        [InsertFailed 1 (AsString (render (build_insert "company" ["id"])));
         Values [VStr "1"];
         RowError 1
           (DatabaseError
              (execute 0 (INSERT (build_insert "company" ["id"]) [VStr "1"])))] |}).
Proof.
  apply (rejected_row_is_rolled_back "company" insert_fails 1 one_record
           start empty_world ["id"] [VStr "1"] true);
    reflexivity.
Defined.

Lemma recover_reconnects_once_witness :
  exists closed,
    let tr := [(execute 0 ROLLBACK_TO_SAVEPOINT, false);
               (rollback 0, true); (close 0, closed); (sleep 1, true)] in
    recover savepoint_lost start empty_world =
    (Ok (Next, start),
     {| trace := tr ++ [(connect, true); (cursor 0, true)]; log := [] |}).
Proof.
  destruct (recover_reconnects_once savepoint_lost start empty_world)
    as [closed H].
  - reflexivity.
  - reflexivity.
  - exists closed. exact H.
Defined.

(** *** When nothing raises *)

Lemma row_body_raises (schema : string) (env : environment) (idx : nat)
      (row : pydict) (l : locals) (w : world) :
  match row_body schema env idx row l w with
  | (Raise e, _) =>
      normalize row = Raise e
      \/ exists tr c, env tr (rollback c) = false
  | (Ok _, _) => True
  end.
Proof.
  unfold row_body, bind, lift.
  destruct (normalize row) as [[columns values]|e]; [|left; reflexivity].
  destruct (all_empty values); [exact I|].
  unfold try_except, recover, try_except, bind, do_connect, do_cursor,
    do_sleep, bind, db, ret, logging, record.
  cbn [trace log fst snd].
  answer_calls; try exact I; right; eauto.
Qed.

Lemma for_rows_returns (schema : string) (env : environment)
      (rows : list pydict) :
  (forall row, In row rows -> exists cv, normalize row = Ok cv) ->
  (forall tr c, env tr (rollback c) = true) ->
  forall idx l w, exists l' w', for_rows schema env idx rows l w = (Ok l', w').
Proof.
  intros Hrows Henv.
  induction rows as [|row rows IH]; intros idx l w.
  - exists l, w. reflexivity.
  - cbn [for_rows]. unfold bind at 1.
    pose proof (row_body_raises schema env idx row l w) as Hrow.
    destruct (row_body schema env idx row l w) as [[[fl l1]|e] w1].
    + destruct fl.
      * apply IH. intros r Hr. apply Hrows. right. exact Hr.
      * exists l1, w1. reflexivity.
    + exfalso. destruct Hrow as [Hn|(tr & c & Hc)].
      * destruct (Hrows row (or_introl eq_refl)) as [cv Hcv]. congruence.
      * rewrite Henv in Hc. discriminate.
Qed.

Lemma run_returns_normalized
      (schema : string) (env : environment) (b : blob) :
  (forall row, In row (rows_of b) -> exists cv, normalize row = Ok cv) ->
  (forall tr c, env tr (rollback c) = true) ->
  readable b = true ->
  fst (run schema env b) = Ok tt.
Proof.
  intros Hrows Henv Hb.
  pose proof (run_load schema env b) as H.
  assert (Hload : forall lines w,
             rows_of b = DictReader lines ->
             fst (load schema env lines w) = Ok tt).
  { intros lines w Hl. rewrite load_unfold. cbv zeta.
    destruct (env (trace w) connect); [|reflexivity].
    destruct (env _ (cursor _)); [|reflexivity].
    rewrite Hl in Hrows.
    match goal with
    | |- context [for_rows ?s ?v ?i ?r ?l ?w0] =>
        destruct (for_rows_returns s v r Hrows Henv i l w0) as (l1 & w2 & E)
    end.
    rewrite E.
    destruct (finalize_shape env l1 w2) as (b1 & b2 & b3 & b4 & E2).
    rewrite E2. reflexivity. }
  destruct b as [|lines|lines| |replaced]; rewrite H.
  - reflexivity.
  - apply Hload. reflexivity.
  - apply Hload. reflexivity.
  - discriminate.
  - discriminate.
Qed.

(** [main] returns whenever the text was downloaded, the reader split it
    into lines, every row can be normalized and [conn.rollback()] does not
    raise, whatever else the database does. *)
Theorem main_returns
        (schema : string) (env : environment) (b : blob) :
  (forall row, In row (rows_of b) -> exists cv, normalize row = Ok cv) ->
  (forall tr c, env tr (rollback c) = true) ->
  readable b = true ->
  fst (run schema env b) = Ok tt.
Proof. apply run_returns_normalized. Qed.

Lemma main_returns_witness :
  fst (run "company" insert_fails (Text two_rows)) = Ok tt.
Proof.
  apply (main_returns "company" insert_fails (Text two_rows)).
  - intros row Hrow. vm_compute in Hrow.
    destruct Hrow as [<-|[<-|[]]]; eexists; reflexivity.
  - intros tr c. reflexivity.
  - reflexivity.
Defined.

(** *** The rows [DictReader] gives to the loop *)

Lemma keys_dict_set (k' k : key) (v : value) (d : pydict) :
  In k' (keys (dict_set k v d)) <-> k' = k \/ In k' (keys d).
Proof.
  induction d as [|[k0 v0] d IH].
  - cbn. intuition congruence.
  - cbn [dict_set]. destruct (key_eqb k k0) eqn:E.
    + apply key_eqb_eq in E. subst k0. cbn. intuition congruence.
    + cbn [keys map fst In] in *. rewrite IH. intuition congruence.
Qed.

Lemma keys_fold_zip (k : key) (xs : list (string * string)) :
  forall d : pydict,
  In k (keys (fold_left
                (fun d kv => dict_set (KStr (fst kv)) (VStr (snd kv)) d) xs d))
  <-> (exists f, k = KStr f /\ In f (map fst xs)) \/ In k (keys d).
Proof.
  induction xs as [|[f v] xs IH]; intros d; cbn [fold_left map fst snd In].
  - split; [auto|]. intros [(f & _ & [])|H]. exact H.
  - rewrite IH, keys_dict_set. split.
    + intros [(g & -> & Hg)|[->|H]]; eauto.
    + intros [(g & -> & [<-|Hg])|H]; eauto.
Qed.

Lemma keys_fold_missing (k : key) (fs : list string) :
  forall d : pydict,
  In k (keys (fold_left (fun d f => dict_set (KStr f) VNone d) fs d))
  <-> (exists f, k = KStr f /\ In f fs) \/ In k (keys d).
Proof.
  induction fs as [|f fs IH]; intros d; cbn [fold_left In].
  - split; [auto|]. intros [(f & _ & [])|H]. exact H.
  - rewrite IH, keys_dict_set. split.
    + intros [(g & -> & Hg)|[->|H]]; eauto.
    + intros [(g & -> & [<-|Hg])|H]; eauto.
Qed.

Lemma map_fst_combine (fn row : list string) :
  map fst (combine fn row) = firstn (length row) fn.
Proof.
  revert row. induction fn as [|f fn IH]; intros [|r row]; try reflexivity.
  cbn. rewrite IH. reflexivity.
Qed.

Lemma keys_DictReader_next (fn row : list string) (k : key) :
  In k (keys (DictReader_next fn row))
  <-> (exists f, k = KStr f /\ In f fn)
      \/ (k = KNone /\ length fn < length row).
Proof.
  unfold DictReader_next. cbv zeta.
  destruct (Nat.ltb_spec (length fn) (length row)) as [Hlt|Hge].
  - rewrite keys_dict_set, keys_fold_zip, map_fst_combine.
    rewrite firstn_all2 by lia. cbn [keys map In].
    split.
    + intros [->|[H|[]]]; auto.
    + intros [H|[-> _]]; auto.
  - destruct (Nat.ltb_spec (length row) (length fn)) as [Hlt|Hge'].
    + rewrite keys_fold_missing, keys_fold_zip, map_fst_combine.
      cbn [keys map In]. split.
      * intros [(f & -> & Hf)|[(f & -> & Hf)|[]]]; left; exists f;
          (split; [reflexivity|]);
          rewrite <- (firstn_skipn (length row) fn); apply in_or_app; auto.
      * intros [(f & -> & Hf)|[_ H]]; [|lia].
        rewrite <- (firstn_skipn (length row) fn) in Hf.
        apply in_app_or in Hf as [Hf|Hf]; eauto.
    + rewrite keys_fold_zip, map_fst_combine.
      rewrite firstn_all2 by lia. cbn [keys map In].
      split.
      * intros [H|[]]. auto.
      * intros [H|[_ H]]; [auto | lia].
Qed.

(** The keys of a row are the header names, and [None] as well exactly
    when the line has more fields than the header has names. *)
Theorem row_keys_are_header_names (fn row : list string) (k : key) :
  In k (keys (DictReader_next fn row))
  <-> (exists f, k = KStr f /\ In f fn)
      \/ (k = KNone /\ length fn < length row).
Proof. apply keys_DictReader_next. Qed.

Lemma rows_of_lines (fn : list string) (rest : list (list string))
      (row : pydict) :
  In row (DictReader (fn :: rest)) ->
  exists r, row = DictReader_next fn r /\ In r rest /\ r <> [].
Proof.
  cbn [DictReader]. intros H. apply in_map_iff in H as (r & <- & Hr).
  apply filter_In in Hr as [Hin Hnb].
  exists r. split; [reflexivity|]. split; [exact Hin|].
  destruct r; [discriminate|discriminate].
Qed.

(** [main] returns on every dataset with no field over the reader's limit,
    whose header names have no surrounding whitespace and whose lines have
    no more fields than the header, as long as [conn.rollback()] does not
    raise. *)
Theorem well_shaped_dataset_loads
        (schema : string) (env : environment)
        (fn : list string) (rest : list (list string)) :
  within_field_limit (fn :: rest) = true ->
  Forall (fun f => strip f = f) fn ->
  Forall (fun r => length r <= length fn) rest ->
  (forall tr c, env tr (rollback c) = true) ->
  fst (run schema env (read_text (fn :: rest))) = Ok tt.
Proof.
  intros Hlimit Hfn Hrest Henv. unfold read_text. rewrite Hlimit.
  apply run_returns_normalized; [|exact Henv|reflexivity].
  cbn [rows_of]. intros row Hrow.
  apply rows_of_lines in Hrow as (r & -> & Hr & _).
  destruct (normalize_clean_keys (DictReader_next fn r)) as (cols & vals & E).
  - intros k Hk. apply keys_DictReader_next in Hk as [(f & -> & Hf)|[_ Hlt]].
    + exists f. split; [reflexivity|].
      rewrite Forall_forall in Hfn. apply Hfn. exact Hf.
    + rewrite Forall_forall in Hrest. specialize (Hrest r Hr). lia.
  - eauto.
Qed.

Lemma well_shaped_dataset_loads_witness :
  fst (run "company" savepoint_lost
         (read_text [["id"; "name"]; ["1"]; []; ["2"; "Bob"]]))
  = Ok tt.
Proof.
  apply (well_shaped_dataset_loads "company" savepoint_lost
           ["id"; "name"] [["1"]; []; ["2"; "Bob"]]).
  - reflexivity.
  - repeat constructor.
  - repeat constructor.
  - intros tr c. reflexivity.
Defined.

(** A text with a field over the reader's limit makes [main] raise before
    it connects: line 47 is outside any [try]. *)
Lemma oversized_field_raises
        (schema : string) (env : environment) (lines : list (list string)) :
  within_field_limit lines = false ->
  run schema env (read_text lines) =
  (Raise CsvError,
   {| trace := []; log := [EventReceived; AttemptingDBConnect] |}).
Proof. intros H. unfold read_text. rewrite H. reflexivity. Qed.

Lemma row_columns_nonempty
      (b : blob) (row : pydict)
      (columns : list string) (values : list value) :
  In row (rows_of b) ->
  normalize row = Ok (columns, values) ->
  columns <> [].
Proof.
  intros Hrow Hn.
  assert (Hkeys : keys row <> []).
  { assert (Hlines : exists lines, rows_of b = DictReader lines).
    { destruct b; cbn [rows_of] in *; eauto; destruct Hrow. }
    destruct Hlines as [[|fn rest] Hl]; rewrite Hl in Hrow; [destruct Hrow|].
    apply rows_of_lines in Hrow as (r & -> & _ & Hr).
    destruct (Nat.ltb_spec (length fn) (length r)) as [Hlt|Hge].
    - intros E.
      assert (H : In KNone (keys (DictReader_next fn r))).
      { apply keys_DictReader_next. right. split; [reflexivity|exact Hlt]. }
      rewrite E in H. destruct H.
    - destruct fn as [|f fn].
      + destruct r; [congruence | cbn in Hge; lia].
      + intros E.
        assert (H : In (KStr f) (keys (DictReader_next (f :: fn) r))).
        { apply keys_DictReader_next. left. exists f.
          split; [reflexivity | left; reflexivity]. }
        rewrite E in H. destruct H. }
  apply normalize_returns in Hn as [Hk _].
  apply strip_keys_returns in Hk.
  intros ->. inversion Hk as [E|]. congruence.
Qed.

(** No row of the loop is without columns: the statement with an empty
    column list is never built from a row that [DictReader] gives. *)
Theorem rows_have_columns
        (b : blob) (row : pydict)
        (columns : list string) (values : list value) :
  In row (rows_of b) ->
  normalize row = Ok (columns, values) ->
  columns <> [].
Proof. apply row_columns_nonempty. Qed.

Lemma rows_have_columns_witness : ["id"] <> [].
Proof.
  apply (rows_have_columns (Text one_row) [(KStr "id", VStr "1")]
           ["id"] [VStr "1"]).
  - left. reflexivity.
  - reflexivity.
Defined.

Lemma row_keys_are_header_names_witness :
  In KNone (keys (DictReader_next ["id"] ["2"; "x"])).
Proof.
  apply (proj2 (row_keys_are_header_names ["id"] ["2"; "x"] KNone)).
  right. split; [reflexivity|]. simpl. lia.
Defined.

Lemma normalize_returns_witness :
  strip_keys (keys one_record) = Ok ["id"]
  /\ Forall2 (fun col v => exists v0,
                dict_get (KStr col) one_record = Some v0 /\ v = stripped v0)
       ["id"] [VStr "1"].
Proof.
  apply (normalize_returns one_record ["id"] [VStr "1"]). reflexivity.
Defined.

(** *** Statements without columns *)


Lemma insert_is_well_formed (schema : string) (row : pydict)
      (columns : list string) (values : list value) (k : nat) (ok : bool) :
  normalize row = Ok (columns, values) ->
  columns <> [] ->
  well_formed_insert
    (execute k (INSERT (build_insert schema columns) values), ok) = true.
Proof.
  intros Hn Hc. cbn [well_formed_insert].
  rewrite build_insert_placeholders.
  apply normalize_returns in Hn as [_ Hv].
  apply Forall2_length in Hv. rewrite <- Hv, Nat.eqb_refl, andb_true_r.
  apply Nat.leb_le. destruct columns; [congruence | cbn; lia].
Qed.

Lemma row_body_inserts_well_formed (schema : string) (env : environment)
      (idx : nat) (row : pydict) (l : locals) (w : world) :
  (forall columns values, normalize row = Ok (columns, values) -> columns <> []) ->
  forallb well_formed_insert (trace w) = true ->
  forallb well_formed_insert
    (trace (snd (row_body schema env idx row l w))) = true.
Proof.
  intros Hcols Hw. unfold row_body, bind, lift.
  destruct (normalize row) as [[columns values]|e] eqn:Hn; [|exact Hw].
  destruct (all_empty values); [exact Hw|].
  pose proof (fun k ok =>
                insert_is_well_formed schema row columns values k ok
                  Hn (Hcols columns values eq_refl)) as Hwf.
  unfold try_except, recover, try_except, bind, do_connect, do_cursor,
    do_sleep, bind, db, ret, logging, record.
  cbn [trace log fst snd].
  answer_calls;
    rewrite ?forallb_app, Hw; cbn [forallb]; rewrite ?Hwf; reflexivity.
Qed.

Lemma for_rows_inserts_well_formed (schema : string) (env : environment)
      (rows : list pydict) :
  (forall row columns values,
     In row rows -> normalize row = Ok (columns, values) -> columns <> []) ->
  forall idx l w,
    forallb well_formed_insert (trace w) = true ->
    forallb well_formed_insert
      (trace (snd (for_rows schema env idx rows l w))) = true.
Proof.
  induction rows as [|row rows IH]; intros Hrows idx l w Hw.
  - exact Hw.
  - cbn [for_rows]. unfold bind at 1.
    pose proof (row_body_inserts_well_formed schema env idx row l w
                  (fun c v => Hrows row c v (or_introl eq_refl)) Hw) as Hrow.
    destruct (row_body schema env idx row l w) as [[[fl l1]|e] w1];
      cbn [snd] in Hrow; [|exact Hrow].
    destruct fl; [|exact Hrow].
    apply IH; [|exact Hrow].
    intros r c v Hr. apply Hrows. right. exact Hr.
Qed.

Lemma load_inserts_well_formed (schema : string) (env : environment)
      (lines : list (list string)) (w : world) :
  forallb well_formed_insert (trace w) = true ->
  forallb well_formed_insert
    (trace (snd (load schema env lines w))) = true.
Proof.
  intros Hw. rewrite load_unfold. cbv zeta.
  destruct (env (trace w) connect);
    [|cbn [snd trace]; rewrite forallb_app, Hw; reflexivity].
  destruct (env _ (cursor _));
    [|cbn [snd trace]; rewrite forallb_app, Hw; reflexivity].
  match goal with
  | |- context [for_rows ?s ?v ?i ?r ?l ?w0] =>
      pose proof (for_rows_inserts_well_formed s v r
                    (fun row c vs Hr Hn =>
                       row_columns_nonempty (Text lines) row c vs Hr Hn)
                    i l w0) as Hloop;
      destruct (for_rows s v i r l w0) as [[l1|e1] w2]
  end; cbn [snd trace] in Hloop.
  - destruct (finalize_shape env l1 w2) as (b1 & b2 & b3 & b4 & E).
    rewrite E. cbn [snd trace].
    rewrite !forallb_app, Hloop by (rewrite forallb_app, Hw; reflexivity).
    destruct b1, b3; reflexivity.
  - cbn [snd]. apply Hloop. rewrite forallb_app, Hw. reflexivity.
Qed.


End IngestFacts.
